(** * Weather-Forecast: the fetch chains and the view-state orchestration

    A shallow embedding of [weather_app.py]: the two services, the
    background task runner, the widgets that carry state and the
    [WeatherApp] methods, followed by the properties of the specification.

    Conventions of the embedding.
    - A Python value that comes out of [response.json()] is a [pyval]; the
      dataclasses do not check their annotations, so their fields hold
      [pyval]s exactly as the code stores them.
    - A call that may raise returns an [outcome]; code that mutates state
      and may raise lives in a state-and-exception monad whose state
      survives a raise, as Python's does.
    - The network is an oracle [net] answering each request; a worker
      records every request it sends in a log.
    - An instance of a dataclass is true, so [if x:] on an optional
      instance is the test for [None].
    - A [string] holds the UTF-8 bytes of a text that the program only
      passes along.  The text of the search entry, the one text the
      program looks into, is a Python [str] as such: a sequence of code
      points. *)

From Stdlib Require Import ZArith QArith Ascii String.
From stdpp Require Import base option list strings pretty gmap.

#[local] Set Warnings "-register-all".
#[local] Open Scope string_scope.
#[local] Open Scope Z_scope.

(* ====================================================================== *)
(** * Python values and exceptions *)
(* ====================================================================== *)

(** What [json.loads] produces: [None], [bool], [int], [float], [str],
    [list] and [dict] with string keys.  No arithmetic is ever done on a
    float by this program, so a float is carried as the rational it
    denotes. *)
Inductive pyval : Type :=
  | JNone
  | JBool (b : bool)
  | JInt (n : Z)
  | JFloat (x : Q)
  | JStr (s : string)
  | JList (items : list pyval)
  | JDict (entries : gmap string pyval).

(** The subclasses of [requests.RequestException] the two calls of the
    library can raise. *)
Inductive RequestException : Type :=
  | ConnectionError
  | Timeout
  | TooManyRedirects
  | HTTPError
  | JSONDecodeError.

Inductive exn : Type :=
  | Requests (e : RequestException)
  | KeyError (key : string)
  | TypeError
  | AttributeError
  | ValueError
  | OverflowError.

Inductive outcome (A : Type) : Type :=
  | Returned (a : A)
  | Raised (e : exn).
Arguments Returned {A} a.
Arguments Raised {A} e.

(** [obj[key]] with a string key: only a dict can answer. *)
Definition subscript (obj : pyval) (key : string) : outcome pyval :=
  match obj with
  | JDict entries =>
      match entries !! key with
      | Some v => Returned v
      | None => Raised (KeyError key)
      end
  | _ => Raised TypeError
  end.

(** [obj.get(key, default)]: only a dict has the method. *)
Definition dict_get (obj : pyval) (key : string) (default : pyval) : outcome pyval :=
  match obj with
  | JDict entries =>
      match entries !! key with
      | Some v => Returned v
      | None => Returned default
      end
  | _ => Raised AttributeError
  end.

(* ====================================================================== *)
(** * Statements that mutate state and may raise *)
(* ====================================================================== *)

(** A computation over a state [S]: it ends by returning or by raising,
    and in both cases leaves the mutations it made so far. *)
Definition M (S A : Type) : Type := S -> outcome A * S.

Definition ret {S A} (a : A) : M S A := fun s => (Returned a, s).

Definition raise {S A} (e : exn) : M S A := fun s => (Raised e, s).

Definition bind {S A B} (m : M S A) (k : A -> M S B) : M S B :=
  fun s =>
    match m s with
    | (Returned a, s') => k a s'
    | (Raised e, s') => (Raised e, s')
    end.

(** The result of a call that touches no state. *)
Definition lift {S A} (o : outcome A) : M S A := fun s => (o, s).

Definition get {S} : M S S := fun s => (Returned s, s).

Definition modify {S} (f : S -> S) : M S unit := fun s => (Returned tt, f s).

(** [try: body  except requests.RequestException: handler]: every other
    exception passes through. *)
Definition try_except_RequestException {S A} (body : M S A) (handler : M S A) : M S A :=
  fun s =>
    match body s with
    | (Raised (Requests _), s') => handler s'
    | r => r
    end.

(** A method of a component run on the component held in a field of the
    enclosing object. *)
Definition zoom {S T A} (proj : S -> T) (upd : T -> S -> S) (m : M T A) : M S A :=
  fun s => let (o, t) := m (proj s) in (o, upd t s).

Declare Scope py_scope.
Delimit Scope py_scope with py.
Notation "x <- m ;; k" := (bind m (fun x => k))
  (at level 100, m at next level, right associativity) : py_scope.
Notation "m ;; k" := (bind m (fun _ => k))
  (at level 100, right associativity) : py_scope.
Notation "obj .[ key ]" := (lift (subscript obj key))
  (at level 1, format "obj .[ key ]") : py_scope.
#[local] Open Scope py_scope.

(* ====================================================================== *)
(** * The HTTP client as the program sees it *)
(* ====================================================================== *)

Definition WEATHER_API_URL : string := "http://api.weatherapi.com/v1/current.json".
Definition IPINFO_URL : string := "https://ipinfo.io/json".

(** The arguments of one [requests.get] call. *)
Record Request : Type := {
  url : string;
  params : list (string * pyval);
  timeout : Z
}.

(** A response that arrived: its status code, and its body decoded as JSON
    when it decodes. *)
Record Response : Type := {
  status_code : Z;
  body : option pyval
}.

(** What the network does with a request: no response (connection refused,
    DNS, timeout, ...) or a response. *)
Inductive http_result : Type :=
  | NoResponse (e : RequestException)
  | Answer (response : Response).

(** The world of a worker thread: the network it faces and the requests it
    has sent so far, oldest first. *)
Record World : Type := {
  net : Request -> http_result;
  sent : list Request
}.

Definition Worker (A : Type) : Type := M World A.

(** [requests.get(url, params=..., timeout=...)]. *)
Definition requests_get (u : string) (ps : list (string * pyval)) (t : Z) : Worker Response :=
  fun w =>
    let rq := {| url := u; params := ps; timeout := t |} in
    let w' := {| net := net w; sent := sent w ++ [rq] |} in
    match net w rq with
    | NoResponse e => (Raised (Requests e), w')
    | Answer response => (Returned response, w')
    end.

(** [response.raise_for_status()]: [HTTPError] for a 4xx or 5xx status. *)
Definition raise_for_status (response : Response) : outcome unit :=
  if (400 <=? status_code response) && (status_code response <? 600)
  then Raised (Requests HTTPError)
  else Returned tt.

(** [response.json()]: the decoded body, or the library's
    [JSONDecodeError], which is a [RequestException]. *)
Definition json (response : Response) : outcome pyval :=
  match body response with
  | Some data => Returned data
  | None => Raised (Requests JSONDecodeError)
  end.

(* ====================================================================== *)
(** * Configuration *)
(* ====================================================================== *)

(** The placeholder the file ships as [API_KEY] and that [get_weather]
    compares against. *)
Definition YOUR_WEATHERAPI_KEY : string := "YOUR_WEATHERAPI_KEY".

(* ====================================================================== *)
(** * Data models *)
(* ====================================================================== *)

(** [@dataclass WeatherData]. *)
Record WeatherData : Type := {
  city : pyval;
  region : pyval;
  country : pyval;
  temp_c : pyval;
  temp_f : pyval;
  feels_like_c : pyval;
  feels_like_f : pyval;
  humidity : pyval;
  wind_kph : pyval;
  wind_mph : pyval;
  condition : pyval;
  condition_icon : pyval;
  uv : pyval;
  last_updated : pyval
}.

(** [@dataclass LocationData]. *)
Module LocationData.

Record t : Type := {
  city : pyval;
  region : pyval;
  country : pyval;
  coordinates : pyval
}.

End LocationData.

(* ====================================================================== *)
(** * Services (API layer) *)
(* ====================================================================== *)

Module LocationService.

Definition get_location_from_ip : Worker (option LocationData.t) :=
  try_except_RequestException
    (response <- requests_get IPINFO_URL [] 10 ;;
     lift (raise_for_status response) ;;
     data <- lift (json response) ;;
     city <- lift (dict_get data "city" (JStr "Unknown")) ;;
     region <- lift (dict_get data "region" (JStr "")) ;;
     country <- lift (dict_get data "country" (JStr "")) ;;
     coordinates <- lift (dict_get data "loc" (JStr "")) ;;
     ret (Some {| LocationData.city := city;
                  LocationData.region := region;
                  LocationData.country := country;
                  LocationData.coordinates := coordinates |}))
    (ret None).

End LocationService.

Module WeatherService.

(** The sample reading of demo mode. *)
Definition demo_weather : WeatherData := {|
  city := JStr "Demo City";
  region := JStr "Demo Region";
  country := JStr "DC";
  temp_c := JFloat 22.5;
  temp_f := JFloat 72.5;
  feels_like_c := JFloat 23.0;
  feels_like_f := JFloat 73.4;
  humidity := JInt 65;
  wind_kph := JFloat 15.0;
  wind_mph := JFloat 9.3;
  condition := JStr "Partly Cloudy";
  condition_icon := JStr "//cdn.weatherapi.com/weather/64x64/day/116.png";
  uv := JFloat 5.0;
  last_updated := JStr "2024-01-01 12:00"
|}.

(** [API_KEY] is the module-level constant the user is told to replace;
    [query] is whatever the caller passes. *)
Definition get_weather (API_KEY : string) (query : pyval) : Worker (option WeatherData) :=
  if String.eqb API_KEY YOUR_WEATHERAPI_KEY then
    ret (Some demo_weather)
  else
    try_except_RequestException
      (response <- requests_get WEATHER_API_URL
                     [("key", JStr API_KEY); ("q", query); ("aqi", JStr "no")] 10 ;;
       lift (raise_for_status response) ;;
       data <- lift (json response) ;;
       location <- data.["location"] ;;
       current <- data.["current"] ;;
       v_city <- location.["name"] ;;
       v_region <- location.["region"] ;;
       v_country <- location.["country"] ;;
       v_temp_c <- current.["temp_c"] ;;
       v_temp_f <- current.["temp_f"] ;;
       v_feels_like_c <- current.["feelslike_c"] ;;
       v_feels_like_f <- current.["feelslike_f"] ;;
       v_humidity <- current.["humidity"] ;;
       v_wind_kph <- current.["wind_kph"] ;;
       v_wind_mph <- current.["wind_mph"] ;;
       v_condition <- (c <- current.["condition"] ;; c.["text"]) ;;
       v_condition_icon <- (c <- current.["condition"] ;; c.["icon"]) ;;
       v_uv <- current.["uv"] ;;
       v_last_updated <- current.["last_updated"] ;;
       ret (Some {| city := v_city;
                    region := v_region;
                    country := v_country;
                    temp_c := v_temp_c;
                    temp_f := v_temp_f;
                    feels_like_c := v_feels_like_c;
                    feels_like_f := v_feels_like_f;
                    humidity := v_humidity;
                    wind_kph := v_wind_kph;
                    wind_mph := v_wind_mph;
                    condition := v_condition;
                    condition_icon := v_condition_icon;
                    uv := v_uv;
                    last_updated := v_last_updated |}))
      (ret None).

End WeatherService.

(* ====================================================================== *)
(** * Async task runner *)
(* ====================================================================== *)

Module AsyncRunner.
Section Runner.

(** The runner is generic in what a task is, what it returns and what
    the callback is; closures are kept as data and called by [call]. *)
Context {Task Callback Result : Type}.

(** What [run] acts on: the daemon threads started and not yet ended,
    and the callbacks [root.after(0, ...)] has queued for the main loop,
    oldest first. *)
Record Root : Type := {
  threads : list (Task * Callback);
  after_queue : list (Callback * Result)
}.

(** [root.after(0, lambda: callback(result))]. *)
Definition after (callback : Callback) (result : Result) (root : Root) : Root :=
  {| threads := threads root;
     after_queue := after_queue root ++ [(callback, result)] |}.

(** The body of a thread, given what calling [task()] does: a value is
    handed to [root.after]; an exception ends the thread before the
    scheduling line is reached. *)
Definition worker (call : Task -> outcome Result)
    (task : Task) (callback : Callback) (root : Root) : Root :=
  match call task with
  | Returned result => after callback result root
  | Raised _ => root
  end.

(** [threading.Thread(target=worker, daemon=True).start()]. *)
Definition run (task : Task) (callback : Callback) (root : Root) : Root :=
  {| threads := threads root ++ [(task, callback)];
     after_queue := after_queue root |}.

(** Thread [i] runs its body to the end and is gone. *)
Definition thread_ends (call : Task -> outcome Result) (i : nat) (root : Root) : Root :=
  match threads root !! i with
  | Some (task, callback) =>
      worker call task callback
        {| threads := delete i (threads root); after_queue := after_queue root |}
  | None => root
  end.

(** The main loop takes the oldest queued callback, if there is one. *)
Definition next_after (root : Root) : option (Callback * Result * Root) :=
  match after_queue root with
  | [] => None
  | (callback, result) :: rest =>
      Some (callback, result, {| threads := threads root; after_queue := rest |})
  end.

End Runner.
Arguments Root : clear implicits.
End AsyncRunner.

(* ====================================================================== *)
(** * UI components *)
(* ====================================================================== *)

(** The degree mark, spelled as the source file spells it. *)
Definition degree : string := "¬∞".

Module WeatherCard.

(** The texts of the labels of a [WeatherCard]. *)
Record t : Type := {
  location_label : pyval;
  region_label : string;
  temp_label : string;
  unit_label : string;
  condition_label : pyval;
  feels_like_value : string;
  humidity_value : string;
  wind_value : string;
  uv_value : string;
  updated_label : string
}.

Section Methods.

(** Two built-ins of Python the labels are made with: [str(v)], and
    [format(v, ".0f")], which raises for a value that is not a number it
    can convert. *)
Variable py_str : pyval -> string.
Variable format_0f : pyval -> outcome string.

(** [label.configure(text=...)], one per label. *)
Definition configure_location_label (text : pyval) : M t unit :=
  modify (fun c => {| location_label := text; region_label := region_label c;
    temp_label := temp_label c; unit_label := unit_label c;
    condition_label := condition_label c; feels_like_value := feels_like_value c;
    humidity_value := humidity_value c; wind_value := wind_value c;
    uv_value := uv_value c; updated_label := updated_label c |}).

Definition configure_region_label (text : string) : M t unit :=
  modify (fun c => {| location_label := location_label c; region_label := text;
    temp_label := temp_label c; unit_label := unit_label c;
    condition_label := condition_label c; feels_like_value := feels_like_value c;
    humidity_value := humidity_value c; wind_value := wind_value c;
    uv_value := uv_value c; updated_label := updated_label c |}).

Definition configure_temp_label (text : string) : M t unit :=
  modify (fun c => {| location_label := location_label c; region_label := region_label c;
    temp_label := text; unit_label := unit_label c;
    condition_label := condition_label c; feels_like_value := feels_like_value c;
    humidity_value := humidity_value c; wind_value := wind_value c;
    uv_value := uv_value c; updated_label := updated_label c |}).

Definition configure_unit_label (text : string) : M t unit :=
  modify (fun c => {| location_label := location_label c; region_label := region_label c;
    temp_label := temp_label c; unit_label := text;
    condition_label := condition_label c; feels_like_value := feels_like_value c;
    humidity_value := humidity_value c; wind_value := wind_value c;
    uv_value := uv_value c; updated_label := updated_label c |}).

Definition configure_condition_label (text : pyval) : M t unit :=
  modify (fun c => {| location_label := location_label c; region_label := region_label c;
    temp_label := temp_label c; unit_label := unit_label c;
    condition_label := text; feels_like_value := feels_like_value c;
    humidity_value := humidity_value c; wind_value := wind_value c;
    uv_value := uv_value c; updated_label := updated_label c |}).

Definition configure_feels_like_value (text : string) : M t unit :=
  modify (fun c => {| location_label := location_label c; region_label := region_label c;
    temp_label := temp_label c; unit_label := unit_label c;
    condition_label := condition_label c; feels_like_value := text;
    humidity_value := humidity_value c; wind_value := wind_value c;
    uv_value := uv_value c; updated_label := updated_label c |}).

Definition configure_humidity_value (text : string) : M t unit :=
  modify (fun c => {| location_label := location_label c; region_label := region_label c;
    temp_label := temp_label c; unit_label := unit_label c;
    condition_label := condition_label c; feels_like_value := feels_like_value c;
    humidity_value := text; wind_value := wind_value c;
    uv_value := uv_value c; updated_label := updated_label c |}).

Definition configure_wind_value (text : string) : M t unit :=
  modify (fun c => {| location_label := location_label c; region_label := region_label c;
    temp_label := temp_label c; unit_label := unit_label c;
    condition_label := condition_label c; feels_like_value := feels_like_value c;
    humidity_value := humidity_value c; wind_value := text;
    uv_value := uv_value c; updated_label := updated_label c |}).

Definition configure_uv_value (text : string) : M t unit :=
  modify (fun c => {| location_label := location_label c; region_label := region_label c;
    temp_label := temp_label c; unit_label := unit_label c;
    condition_label := condition_label c; feels_like_value := feels_like_value c;
    humidity_value := humidity_value c; wind_value := wind_value c;
    uv_value := text; updated_label := updated_label c |}).

Definition configure_updated_label (text : string) : M t unit :=
  modify (fun c => {| location_label := location_label c; region_label := region_label c;
    temp_label := temp_label c; unit_label := unit_label c;
    condition_label := condition_label c; feels_like_value := feels_like_value c;
    humidity_value := humidity_value c; wind_value := wind_value c;
    uv_value := uv_value c; updated_label := text |}).

(** [_create_widgets]: the placeholders a new card shows. *)
Definition _create_widgets : t := {|
  location_label := JStr "--";
  region_label := "";
  temp_label := "--" ++ degree;
  unit_label := "C";
  condition_label := JStr "--";
  feels_like_value := "--" ++ degree ++ "C";
  humidity_value := "--%";
  wind_value := "-- km/h";
  uv_value := "--";
  updated_label := ""
|}.

(** [update_weather(weather, use_celsius)]: each f-string is evaluated
    before the [configure] it is passed to. *)
Definition update_weather (weather : WeatherData) (use_celsius : bool) : M t unit :=
  configure_location_label (city weather) ;;
  configure_region_label (py_str (region weather) ++ ", " ++ py_str (country weather)) ;;
  (if use_celsius then
     t <- lift (format_0f (temp_c weather)) ;;
     configure_temp_label (t ++ degree) ;;
     configure_unit_label "C" ;;
     f <- lift (format_0f (feels_like_c weather)) ;;
     configure_feels_like_value (f ++ degree ++ "C") ;;
     w <- lift (format_0f (wind_kph weather)) ;;
     configure_wind_value (w ++ " km/h")
   else
     t <- lift (format_0f (temp_f weather)) ;;
     configure_temp_label (t ++ degree) ;;
     configure_unit_label "F" ;;
     f <- lift (format_0f (feels_like_f weather)) ;;
     configure_feels_like_value (f ++ degree ++ "F") ;;
     w <- lift (format_0f (wind_mph weather)) ;;
     configure_wind_value (w ++ " mph")) ;;
  configure_condition_label (condition weather) ;;
  configure_humidity_value (py_str (humidity weather) ++ "%") ;;
  configure_uv_value (py_str (uv weather)) ;;
  configure_updated_label ("Updated: " ++ py_str (last_updated weather)).

End Methods.
End WeatherCard.

Module ErrorDisplay.
Section Methods.

(** The type of the callable given as [retry_callback]. *)
Context {Callable : Type}.

Record t : Type := {
  retry_callback : Callable;
  message_label : string;
  (** the [command] of [retry_btn] *)
  retry_btn : Callable
}.

(** [__init__] followed by [_create_widgets]: the button is created with
    [command=self.retry_callback]. *)
Definition __init__ (retry_callback : Callable) : t := {|
  retry_callback := retry_callback;
  message_label := "Unable to fetch weather data";
  retry_btn := retry_callback
|}.

Definition set_message (message : string) : M t unit :=
  modify (fun e => {| retry_callback := retry_callback e;
                      message_label := message;
                      retry_btn := retry_btn e |}).

End Methods.
Arguments t : clear implicits.
End ErrorDisplay.

(* ====================================================================== *)
(** * [str] and [str.strip()] *)
(* ====================================================================== *)

(** The code points [str.strip()] removes, which are those [str.isspace]
    accepts: tab to carriage return, the four separators 28 to 31, space,
    NEL, no-break space, the Ogham space mark, the spaces U+2000 to
    U+200A, the line and paragraph separators, the narrow no-break space,
    the medium mathematical space and the ideographic space. *)
Definition whitespace : list N :=
  [9; 10; 11; 12; 13; 28; 29; 30; 31; 32; 133; 160; 5760;
   8192; 8193; 8194; 8195; 8196; 8197; 8198; 8199; 8200; 8201; 8202;
   8232; 8233; 8239; 8287; 12288]%N.

Definition isspace (c : N) : bool := existsb (N.eqb c) whitespace.

Fixpoint lstrip (s : list N) : list N :=
  match s with
  | [] => []
  | c :: rest => if isspace c then lstrip rest else s
  end.

Fixpoint rstrip (s : list N) : list N :=
  match s with
  | [] => []
  | c :: rest =>
      match rstrip rest with
      | [] => if isspace c then [] else [c]
      | kept => c :: kept
      end
  end.

Definition strip (s : list N) : list N := rstrip (lstrip s).

(** Every character of [s] is one that [strip] removes. *)
Fixpoint all_whitespace (s : list N) : bool :=
  match s with
  | [] => true
  | c :: rest => isspace c && all_whitespace rest
  end.

(** [not s] for a [str]. *)
Definition is_empty (s : list N) : bool :=
  match s with [] => true | _ => false end.

(** The UTF-8 bytes of a code point and of a [str].  A code point beyond
    U+10FFFF, which no [str] holds, is folded into four bytes as well. *)
Definition utf8_code_point (c : N) : list ascii :=
  (if c <? 128 then
     [ascii_of_N c]
   else if c <? 2048 then
     [ascii_of_N (192 + c / 64); ascii_of_N (128 + c mod 64)]
   else if c <? 65536 then
     [ascii_of_N (224 + c / 4096); ascii_of_N (128 + (c / 64) mod 64);
      ascii_of_N (128 + c mod 64)]
   else
     [ascii_of_N (240 + (c / 262144) mod 8); ascii_of_N (128 + (c / 4096) mod 64);
      ascii_of_N (128 + (c / 64) mod 64); ascii_of_N (128 + c mod 64)])%N.

Definition utf8 (s : list N) : string :=
  string_of_list_ascii (flat_map utf8_code_point s).

(** The [str] of a literal made of ASCII characters. *)
Definition ascii_text (literal : string) : list N :=
  map N_of_ascii (list_ascii_of_string literal).

(* ====================================================================== *)
(** * Main application *)
(* ====================================================================== *)

(** The two closures named [task] that the application hands to the
    runner: the one of [_fetch_weather_by_location], which captures
    nothing, and the one of [_search_city], which captures [city]. *)
Inductive task : Type :=
  | task_by_location
  | task_search (city : list N).

(** The bound methods given to buttons and to [ErrorDisplay]. *)
Inductive command : Type :=
  | self_toggle_unit
  | self_search_city
  | self_fetch_weather_by_location.

(** The bound method given to the runner as [callback]. *)
Inductive callback : Type :=
  | self_handle_weather_result.

Definition newline : string := String (ascii_of_nat 10) EmptyString.

Module WeatherApp.

(** The attributes of the window that carry state.  A frame is shown when
    it is packed; the spinner has no other state.  The appearance mode and
    the theme button, which [_toggle_theme] alone reads and writes, are
    left out. *)
Record t : Type := {
  current_weather : option WeatherData;
  use_celsius : bool;
  unit_btn : string;
  search_entry : list N;
  weather_card : WeatherCard.t;
  weather_card_packed : bool;
  loading_spinner_packed : bool;
  error_display : ErrorDisplay.t command;
  error_display_packed : bool;
  root : AsyncRunner.Root task callback (option WeatherData)
}.

Definition set_current_weather (x : option WeatherData) : M t unit :=
  modify (fun self =>
    {| current_weather := x;
       use_celsius := use_celsius self;
       unit_btn := unit_btn self;
       search_entry := search_entry self;
       weather_card := weather_card self;
       weather_card_packed := weather_card_packed self;
       loading_spinner_packed := loading_spinner_packed self;
       error_display := error_display self;
       error_display_packed := error_display_packed self;
       root := root self |}).

Definition set_use_celsius (x : bool) : M t unit :=
  modify (fun self =>
    {| current_weather := current_weather self;
       use_celsius := x;
       unit_btn := unit_btn self;
       search_entry := search_entry self;
       weather_card := weather_card self;
       weather_card_packed := weather_card_packed self;
       loading_spinner_packed := loading_spinner_packed self;
       error_display := error_display self;
       error_display_packed := error_display_packed self;
       root := root self |}).

Definition set_unit_btn (x : string) : M t unit :=
  modify (fun self =>
    {| current_weather := current_weather self;
       use_celsius := use_celsius self;
       unit_btn := x;
       search_entry := search_entry self;
       weather_card := weather_card self;
       weather_card_packed := weather_card_packed self;
       loading_spinner_packed := loading_spinner_packed self;
       error_display := error_display self;
       error_display_packed := error_display_packed self;
       root := root self |}).

Definition set_search_entry (x : list N) : M t unit :=
  modify (fun self =>
    {| current_weather := current_weather self;
       use_celsius := use_celsius self;
       unit_btn := unit_btn self;
       search_entry := x;
       weather_card := weather_card self;
       weather_card_packed := weather_card_packed self;
       loading_spinner_packed := loading_spinner_packed self;
       error_display := error_display self;
       error_display_packed := error_display_packed self;
       root := root self |}).

Definition set_weather_card (x : WeatherCard.t) : M t unit :=
  modify (fun self =>
    {| current_weather := current_weather self;
       use_celsius := use_celsius self;
       unit_btn := unit_btn self;
       search_entry := search_entry self;
       weather_card := x;
       weather_card_packed := weather_card_packed self;
       loading_spinner_packed := loading_spinner_packed self;
       error_display := error_display self;
       error_display_packed := error_display_packed self;
       root := root self |}).

Definition set_weather_card_packed (x : bool) : M t unit :=
  modify (fun self =>
    {| current_weather := current_weather self;
       use_celsius := use_celsius self;
       unit_btn := unit_btn self;
       search_entry := search_entry self;
       weather_card := weather_card self;
       weather_card_packed := x;
       loading_spinner_packed := loading_spinner_packed self;
       error_display := error_display self;
       error_display_packed := error_display_packed self;
       root := root self |}).

Definition set_loading_spinner_packed (x : bool) : M t unit :=
  modify (fun self =>
    {| current_weather := current_weather self;
       use_celsius := use_celsius self;
       unit_btn := unit_btn self;
       search_entry := search_entry self;
       weather_card := weather_card self;
       weather_card_packed := weather_card_packed self;
       loading_spinner_packed := x;
       error_display := error_display self;
       error_display_packed := error_display_packed self;
       root := root self |}).

Definition set_error_display (x : ErrorDisplay.t command) : M t unit :=
  modify (fun self =>
    {| current_weather := current_weather self;
       use_celsius := use_celsius self;
       unit_btn := unit_btn self;
       search_entry := search_entry self;
       weather_card := weather_card self;
       weather_card_packed := weather_card_packed self;
       loading_spinner_packed := loading_spinner_packed self;
       error_display := x;
       error_display_packed := error_display_packed self;
       root := root self |}).

Definition set_error_display_packed (x : bool) : M t unit :=
  modify (fun self =>
    {| current_weather := current_weather self;
       use_celsius := use_celsius self;
       unit_btn := unit_btn self;
       search_entry := search_entry self;
       weather_card := weather_card self;
       weather_card_packed := weather_card_packed self;
       loading_spinner_packed := loading_spinner_packed self;
       error_display := error_display self;
       error_display_packed := x;
       root := root self |}).

Definition set_root (x : AsyncRunner.Root task callback (option WeatherData)) : M t unit :=
  modify (fun self =>
    {| current_weather := current_weather self;
       use_celsius := use_celsius self;
       unit_btn := unit_btn self;
       search_entry := search_entry self;
       weather_card := weather_card self;
       weather_card_packed := weather_card_packed self;
       loading_spinner_packed := loading_spinner_packed self;
       error_display := error_display self;
       error_display_packed := error_display_packed self;
       root := x |}).

Section Methods.

Variable API_KEY : string.
Variable py_str : pyval -> string.
Variable format_0f : pyval -> outcome string.

(** Calling each of the two [task] closures. *)
Definition call_task (f : task) : Worker (option WeatherData) :=
  match f with
  | task_by_location =>
      location <- LocationService.get_location_from_ip ;;
      match location with
      | Some l => WeatherService.get_weather API_KEY (LocationData.city l)
      | None => ret None
      end
  | task_search city =>
      WeatherService.get_weather API_KEY (JStr (utf8 city))
  end.

(** [self.weather_card.update_weather(...)]. *)
Definition weather_card_update_weather (weather : WeatherData) (celsius : bool) : M t unit :=
  zoom weather_card
    (fun c self => snd (set_weather_card c self))
    (WeatherCard.update_weather py_str format_0f weather celsius).

(** [self.error_display.set_message(...)]. *)
Definition error_display_set_message (message : string) : M t unit :=
  zoom error_display
    (fun e self => snd (set_error_display e self))
    (ErrorDisplay.set_message message).

(** [AsyncRunner.run(task, callback, self)]. *)
Definition AsyncRunner_run (f : task) (cb : callback) : M t unit :=
  self <- get ;;
  set_root (AsyncRunner.run f cb (root self)).

Definition _clear_content : M t unit :=
  set_weather_card_packed false ;;
  set_loading_spinner_packed false ;;
  set_error_display_packed false.

Definition _show_loading : M t unit :=
  _clear_content ;;
  set_loading_spinner_packed true.

Definition _show_weather : M t unit :=
  _clear_content ;;
  set_weather_card_packed true.

Definition _show_error (message : string) : M t unit :=
  _clear_content ;;
  error_display_set_message message ;;
  set_error_display_packed true.

Definition _toggle_unit : M t unit :=
  self <- get ;;
  set_use_celsius (negb (use_celsius self)) ;;
  self <- get ;;
  set_unit_btn (if negb (use_celsius self) then degree ++ "C" else degree ++ "F") ;;
  self <- get ;;
  match current_weather self with
  | Some weather => weather_card_update_weather weather (use_celsius self)
  | None => ret tt
  end.

Definition _fetch_weather_by_location : M t unit :=
  _show_loading ;;
  AsyncRunner_run task_by_location self_handle_weather_result.

Definition _search_city : M t unit :=
  self <- get ;;
  let city := strip (search_entry self) in
  if is_empty city then
    ret tt
  else
    _show_loading ;;
    AsyncRunner_run (task_search city) self_handle_weather_result.

Definition _handle_weather_result (weather : option WeatherData) : M t unit :=
  match weather with
  | Some w =>
      set_current_weather (Some w) ;;
      self <- get ;;
      weather_card_update_weather w (use_celsius self) ;;
      _show_weather
  | None =>
      _show_error ("Could not fetch weather data." ++ newline
                     ++ "Check your connection or API key.")
  end.

(** [_create_ui], on an object whose two plain attributes [__init__] has
    just set: the widgets are created, then [_show_loading] is called. *)
Definition _create_ui (current_weather : option WeatherData) (use_celsius : bool) : t :=
  snd (_show_loading
    {| current_weather := current_weather;
       use_celsius := use_celsius;
       unit_btn := degree ++ "F";
       search_entry := [];
       weather_card := WeatherCard._create_widgets;
       weather_card_packed := false;
       loading_spinner_packed := false;
       error_display := ErrorDisplay.__init__ self_fetch_weather_by_location;
       error_display_packed := false;
       root := {| AsyncRunner.threads := []; AsyncRunner.after_queue := [] |} |}).

(** [WeatherApp()]. *)
Definition __init__ : t :=
  snd (_fetch_weather_by_location (_create_ui None true)).

(** ** The event loop *)

(** Calling a stored bound method. *)
Definition call_command (c : command) : M t unit :=
  match c with
  | self_toggle_unit => _toggle_unit
  | self_search_city => _search_city
  | self_fetch_weather_by_location => _fetch_weather_by_location
  end.

Definition call_callback (cb : callback) (result : option WeatherData) : M t unit :=
  match cb with
  | self_handle_weather_result => _handle_weather_result result
  end.

(** What can happen to a running application. *)
Inductive event : Type :=
  | user_types (text : list N)
  | click_unit_btn
  | click_search_btn
  | press_return
  | click_location_btn
  | click_retry_btn
  | thread_ends (i : nat) (network : Request -> http_result)
  | mainloop_after.

(** Tk calls a handler on the main thread; an exception that comes out
    of it is reported and the loop goes on. *)
Definition tk_call (handler : M t unit) (self : t) : t := snd (handler self).

Definition step (e : event) (self : t) : t :=
  match e with
  | user_types text => tk_call (set_search_entry text) self
  | click_unit_btn => tk_call (call_command self_toggle_unit) self
  | click_search_btn => tk_call (call_command self_search_city) self
  | press_return => tk_call _search_city self
  | click_location_btn => tk_call (call_command self_fetch_weather_by_location) self
  | click_retry_btn =>
      tk_call (call_command (ErrorDisplay.retry_btn (error_display self))) self
  | thread_ends i network =>
      snd (set_root
             (AsyncRunner.thread_ends
                (fun f => fst (call_task f {| net := network; sent := [] |}))
                i (root self))
             self)
  | mainloop_after =>
      match AsyncRunner.next_after (root self) with
      | Some (cb, result, root') =>
          tk_call (set_root root' ;; call_callback cb result) self
      | None => self
      end
  end.

Definition run (events : list event) (self : t) : t :=
  fold_left (fun s e => step e s) events self.

End Methods.
End WeatherApp.

(* ====================================================================== *)
(** * The vocabulary of the specification *)
(* ====================================================================== *)

(** The three views of the specification. *)
Inductive ViewState : Type :=
  | Loading
  | Showing (reading : WeatherData) (celsius : bool)
  | Failed (message : string).

Section View.

Variable py_str : pyval -> string.
Variable format_0f : pyval -> outcome string.

(** Which of the spinner, the card and the error display are packed. *)
Definition packed (self : WeatherApp.t) : bool * bool * bool :=
  (WeatherApp.loading_spinner_packed self,
   WeatherApp.weather_card_packed self,
   WeatherApp.error_display_packed self).

(** The card carries the texts [update_weather(reading, celsius)]
    writes: writing them again succeeds and changes no label. *)
Definition card_displays (card : WeatherCard.t) (reading : WeatherData) (celsius : bool) : Prop :=
  WeatherCard.update_weather py_str format_0f reading celsius card = (Returned tt, card).

(** The application is in view state [v]: the one frame of [v] is
    packed, and for [Showing] the stored reading and unit are the ones
    on the card, for [Failed] the message is the one displayed. *)
Definition shows (self : WeatherApp.t) (v : ViewState) : Prop :=
  match v with
  | Loading => packed self = (true, false, false)
  | Showing reading celsius =>
      packed self = (false, true, false)
      /\ WeatherApp.current_weather self = Some reading
      /\ WeatherApp.use_celsius self = celsius
      /\ card_displays (WeatherApp.weather_card self) reading celsius
  | Failed message =>
      packed self = (false, false, true)
      /\ ErrorDisplay.message_label (WeatherApp.error_display self) = message
  end.

(** [update_weather(reading, celsius)] runs to its end: the three
    numbers shown in the chosen unit can be formatted. *)
Definition renders (reading : WeatherData) (celsius : bool) : Prop :=
  if celsius then
    (exists t, format_0f (temp_c reading) = Returned t)
    /\ (exists f, format_0f (feels_like_c reading) = Returned f)
    /\ (exists w, format_0f (wind_kph reading) = Returned w)
  else
    (exists t, format_0f (temp_f reading) = Returned t)
    /\ (exists f, format_0f (feels_like_f reading) = Returned f)
    /\ (exists w, format_0f (wind_mph reading) = Returned w).

End View.

(** The command the retry button was created with. *)
Definition retry_command (self : WeatherApp.t) : command :=
  ErrorDisplay.retry_btn (WeatherApp.error_display self).

(** The message of a failed fetch. *)
Definition fetch_failed_message : string :=
  "Could not fetch weather data." ++ newline ++ "Check your connection or API key.".

(** The view state a completion hands over: the reading in the current
    unit, or the failure. *)
Definition view_of_result (result : option WeatherData) (celsius : bool) : ViewState :=
  match result with
  | Some reading => Showing reading celsius
  | None => Failed fetch_failed_message
  end.

(** A result that is a reading is one the card can be written with. *)
Definition result_renders (format_0f : pyval -> outcome string)
    (result : option WeatherData) (celsius : bool) : Prop :=
  match result with
  | Some reading => renders format_0f reading celsius
  | None => True
  end.

(** What calling a task yields on a thread that faces [network]. *)
Definition task_outcome (API_KEY : string) (f : task) (network : Request -> http_result)
    : outcome (option WeatherData) :=
  fst (WeatherApp.call_task API_KEY f {| net := network; sent := [] |}).

(** The request [get_weather] sends for [query] under a configured key,
    and the one [get_location_from_ip] sends. *)
Definition weather_request (API_KEY : string) (query : pyval) : Request :=
  {| url := WEATHER_API_URL;
     params := [("key", JStr API_KEY); ("q", query); ("aqi", JStr "no")];
     timeout := 10 |}.

Definition ipinfo_request : Request :=
  {| url := IPINFO_URL; params := []; timeout := 10 |}.

(** A network on which every request is answered by [response]. *)
Definition always (response : Response) : Request -> http_result :=
  fun _ => Answer response.

(** The requests of a log that went to the weather provider. *)
Definition weather_provider_calls (log : list Request) : list Request :=
  filter (fun rq => url rq = WEATHER_API_URL) log.

(** The member of a JSON object found by following [path]. *)
Fixpoint at_path (data : pyval) (path : list string) : option pyval :=
  match path with
  | [] => Some data
  | key :: rest =>
      match data with
      | JDict entries => entries !! key ≫= fun v => at_path v rest
      | _ => None
      end
  end.

(** The reading of the specification for a provider response: every field
    is the member of the response the specification names for it, and
    there is a reading only when all of them are present. *)
Definition provider_reading (data : pyval) : option WeatherData :=
  v_city ← at_path data ["location"; "name"];
  v_region ← at_path data ["location"; "region"];
  v_country ← at_path data ["location"; "country"];
  v_temp_c ← at_path data ["current"; "temp_c"];
  v_temp_f ← at_path data ["current"; "temp_f"];
  v_feels_like_c ← at_path data ["current"; "feelslike_c"];
  v_feels_like_f ← at_path data ["current"; "feelslike_f"];
  v_humidity ← at_path data ["current"; "humidity"];
  v_wind_kph ← at_path data ["current"; "wind_kph"];
  v_wind_mph ← at_path data ["current"; "wind_mph"];
  v_condition ← at_path data ["current"; "condition"; "text"];
  v_condition_icon ← at_path data ["current"; "condition"; "icon"];
  v_uv ← at_path data ["current"; "uv"];
  v_last_updated ← at_path data ["current"; "last_updated"];
  Some {| city := v_city; region := v_region; country := v_country;
          temp_c := v_temp_c; temp_f := v_temp_f;
          feels_like_c := v_feels_like_c; feels_like_f := v_feels_like_f;
          humidity := v_humidity; wind_kph := v_wind_kph; wind_mph := v_wind_mph;
          condition := v_condition; condition_icon := v_condition_icon;
          uv := v_uv; last_updated := v_last_updated |}.

(* ====================================================================== *)
(** * Sample data for the worked examples *)
(* ====================================================================== *)

(** An instance of the two built-ins, enough for the values of the
    examples: [str] of a string is the string, of an integer its decimal
    and of a float, here, its fraction; [".0f"] rounds a number half to
    even and raises for a string ([ValueError]) and for anything that is
    not a number ([TypeError]).  The theorems hold for every instance. *)
Definition round_half_even (x : Q) : Z :=
  let d := Z.pos (Qden x) in
  let lower := Qnum x / d in
  let twice := 2 * (Qnum x mod d) in
  if twice <? d then lower
  else if d <? twice then lower + 1
  else if Z.even lower then lower else lower + 1.

Definition sample_str (v : pyval) : string :=
  match v with
  | JStr s => s
  | JInt n => pretty n
  | JBool true => "True"
  | JBool false => "False"
  | JNone => "None"
  | JFloat x => pretty (Qnum x) ++ "/" ++ pretty (Z.pos (Qden x))
  | JList _ => "[...]"
  | JDict _ => "{...}"
  end.

Definition sample_format_0f (v : pyval) : outcome string :=
  match v with
  | JFloat x => Returned (pretty (round_half_even x))
  | JInt n => Returned (pretty n)
  | JBool b => Returned (if b then "1" else "0")
  | JStr _ => Raised ValueError
  | _ => Raised TypeError
  end.

(** The answer of the location provider of end-to-end scenario 1. *)
Definition paris_location : pyval :=
  JDict (<["city" := JStr "Paris"]> (<["region" := JStr "Ile-de-France"]>
        (<["country" := JStr "FR"]> (<["loc" := JStr "48.85,2.35"]> ∅)))).

(** An answer of the weather provider for Paris.  The Fahrenheit members
    are not the conversions of the Celsius ones. *)
Definition paris_weather : pyval :=
  JDict (<["location" :=
            JDict (<["name" := JStr "Paris"]> (<["region" := JStr "Ile-de-France"]>
                  (<["country" := JStr "France"]> ∅)))]>
        (<["current" :=
            JDict (<["temp_c" := JFloat 18.0]> (<["temp_f" := JFloat 0.0]>
                  (<["feelslike_c" := JFloat 17.5]> (<["feelslike_f" := JFloat 1.0]>
                  (<["humidity" := JInt 70]>
                  (<["wind_kph" := JFloat 12.0]> (<["wind_mph" := JFloat 2.0]>
                  (<["condition" :=
                      JDict (<["text" := JStr "Clear"]> (<["icon" := JStr "//icon.png"]> ∅))]>
                  (<["uv" := JFloat 4.0]>
                  (<["last_updated" := JStr "2024-06-01 10:00"]> ∅))))))))))]> ∅)).

Definition paris_reading : WeatherData := {|
  city := JStr "Paris";
  region := JStr "Ile-de-France";
  country := JStr "France";
  temp_c := JFloat 18.0;
  temp_f := JFloat 0.0;
  feels_like_c := JFloat 17.5;
  feels_like_f := JFloat 1.0;
  humidity := JInt 70;
  wind_kph := JFloat 12.0;
  wind_mph := JFloat 2.0;
  condition := JStr "Clear";
  condition_icon := JStr "//icon.png";
  uv := JFloat 4.0;
  last_updated := JStr "2024-06-01 10:00"
|}.

(** A network on which both providers answer 200 with the bodies above,
    and one on which nothing answers in time. *)
Definition network_up : Request -> http_result :=
  fun rq =>
    if String.eqb (url rq) IPINFO_URL
    then Answer {| status_code := 200; body := Some paris_location |}
    else Answer {| status_code := 200; body := Some paris_weather |}.

Definition network_down : Request -> http_result :=
  fun _ => NoResponse Timeout.

(** A network on which the weather provider answers 200 with an empty
    object. *)
Definition network_empty_object : Request -> http_result :=
  always {| status_code := 200; body := Some (JDict ∅) |}.

(** A configured key. *)
Definition my_key : string := "my-key".

(** The application after a search for Paris that failed: the chain of
    the start fails and its failure is shown, the user searches for
    Paris, that chain fails too and its failure is shown. *)
Definition after_failed_search : WeatherApp.t :=
  WeatherApp.run my_key sample_str sample_format_0f
    [WeatherApp.thread_ends 0 network_down; WeatherApp.mainloop_after;
     WeatherApp.user_types (ascii_text "Paris"); WeatherApp.click_search_btn;
     WeatherApp.thread_ends 0 network_down; WeatherApp.mainloop_after]
    WeatherApp.__init__.

(** The application just after the user searched for Paris while the
    chain of the start was still in flight. *)
Definition two_in_flight : WeatherApp.t :=
  WeatherApp.run my_key sample_str sample_format_0f
    [WeatherApp.user_types (ascii_text "Paris"); WeatherApp.click_search_btn]
    WeatherApp.__init__.

(* ====================================================================== *)
(** * Further vocabulary *)
(* ====================================================================== *)

(** The value is a JSON object. *)
Definition is_object (v : pyval) : bool :=
  match v with JDict _ => true | _ => false end.

(** The status is one [raise_for_status] raises for. *)
Definition status_is_error (response : Response) : bool :=
  (400 <=? status_code response) && (status_code response <? 600).


(** What the network gave is a response with a good status whose body
    decodes to [data]. *)
Definition decodes_to (result : http_result) (data : pyval) : Prop :=
  match result with
  | NoResponse _ => False
  | Answer response => status_is_error response = false /\ body response = Some data
  end.

(** The location [get_location_from_ip] builds from the members of an
    object, with the defaults of the four [.get] calls. *)
Definition location_of (entries : gmap string pyval) : LocationData.t :=
  {| LocationData.city := default (JStr "Unknown") (entries !! "city");
     LocationData.region := default (JStr "") (entries !! "region");
     LocationData.country := default (JStr "") (entries !! "country");
     LocationData.coordinates := default (JStr "") (entries !! "loc") |}.

(** The text begins, or ends, with a character [strip] removes. *)
Definition first_is_space (s : list N) : bool :=
  match s with
  | [] => false
  | c :: _ => isspace c
  end.

Fixpoint last_is_space (s : list N) : bool :=
  match s with
  | [] => false
  | [c] => isspace c
  | _ :: rest => last_is_space rest
  end.

(** The three numbers [update_weather] formats in the chosen unit, and the
    two texts that name the unit. *)
Definition shown_temp (weather : WeatherData) (celsius : bool) : pyval :=
  if celsius then temp_c weather else temp_f weather.

Definition shown_feels_like (weather : WeatherData) (celsius : bool) : pyval :=
  if celsius then feels_like_c weather else feels_like_f weather.

Definition shown_wind (weather : WeatherData) (celsius : bool) : pyval :=
  if celsius then wind_kph weather else wind_mph weather.

Definition unit_letter (celsius : bool) : string :=
  if celsius then "C" else "F".

Definition wind_unit (celsius : bool) : string :=
  if celsius then " km/h" else " mph".

(** A reading with its three Fahrenheit-side fields replaced, and one with
    its three Celsius-side fields replaced. *)
Definition with_imperial (weather : WeatherData) (t f w : pyval) : WeatherData :=
  {| city := city weather; region := region weather; country := country weather;
     temp_c := temp_c weather; temp_f := t;
     feels_like_c := feels_like_c weather; feels_like_f := f;
     humidity := humidity weather;
     wind_kph := wind_kph weather; wind_mph := w;
     condition := condition weather; condition_icon := condition_icon weather;
     uv := uv weather; last_updated := last_updated weather |}.

Definition with_metric (weather : WeatherData) (t f w : pyval) : WeatherData :=
  {| city := city weather; region := region weather; country := country weather;
     temp_c := t; temp_f := temp_f weather;
     feels_like_c := f; feels_like_f := feels_like_f weather;
     humidity := humidity weather;
     wind_kph := w; wind_mph := wind_mph weather;
     condition := condition weather; condition_icon := condition_icon weather;
     uv := uv weather; last_updated := last_updated weather |}.

(** The card [update_weather] leaves when it runs to its end, the three
    formatted numbers being [t], [f] and [w]. *)
Definition written_card (py_str : pyval -> string) (weather : WeatherData) (celsius : bool)
    (t f w : string) : WeatherCard.t :=
  {| WeatherCard.location_label := city weather;
     WeatherCard.region_label := py_str (region weather) ++ ", " ++ py_str (country weather);
     WeatherCard.temp_label := t ++ degree;
     WeatherCard.unit_label := unit_letter celsius;
     WeatherCard.condition_label := condition weather;
     WeatherCard.feels_like_value := f ++ degree ++ unit_letter celsius;
     WeatherCard.humidity_value := py_str (humidity weather) ++ "%";
     WeatherCard.wind_value := w ++ wind_unit celsius;
     WeatherCard.uv_value := py_str (uv weather);
     WeatherCard.updated_label := "Updated: " ++ py_str (last_updated weather) |}.

(** Exactly one of the three frames is packed. *)
Definition one_frame (p : bool * bool * bool) : Prop :=
  p = (true, false, false) \/ p = (false, true, false) \/ p = (false, false, true).

(** The text of the unit button for a unit preference: it names the unit
    a press would switch to. *)
Definition unit_btn_text (celsius : bool) : string :=
  if celsius then degree ++ "F" else degree ++ "C".

(** What every execution keeps true of the window. *)
Definition consistent (self : WeatherApp.t) : Prop :=
  one_frame (packed self)
  /\ WeatherApp.unit_btn self = unit_btn_text (WeatherApp.use_celsius self)
  /\ (WeatherApp.error_display_packed self = true ->
      ErrorDisplay.message_label (WeatherApp.error_display self) = fetch_failed_message)
  /\ (WeatherApp.weather_card_packed self = true ->
      WeatherApp.current_weather self <> None).

(** The event is a press of the unit button. *)
Definition is_click_unit_btn (e : WeatherApp.event) : bool :=
  match e with WeatherApp.click_unit_btn => true | _ => false end.

(** The three numbers of a reading can be formatted in both units. *)
Definition renders_both (format_0f : pyval -> outcome string) (reading : WeatherData) : Prop :=
  renders format_0f reading true /\ renders format_0f reading false.

(** Every reading a chain can bring back from the network can be
    formatted in both units. *)
Definition network_well_typed (API_KEY : string) (format_0f : pyval -> outcome string)
    (network : Request -> http_result) : Prop :=
  forall f reading,
    task_outcome API_KEY f network = Returned (Some reading) ->
    renders_both format_0f reading.

(** The same of the network a thread faces when it ends. *)
Definition event_well_typed (API_KEY : string) (format_0f : pyval -> outcome string)
    (e : WeatherApp.event) : Prop :=
  match e with
  | WeatherApp.thread_ends _ network => network_well_typed API_KEY format_0f network
  | _ => True
  end.

(** The card is in step with the stored reading and the unit, and so will
    it be after the queued callbacks. *)
Definition in_sync (py_str : pyval -> string) (format_0f : pyval -> outcome string)
    (self : WeatherApp.t) : Prop :=
  (forall reading, WeatherApp.current_weather self = Some reading ->
     renders_both format_0f reading
     /\ card_displays py_str format_0f (WeatherApp.weather_card self) reading
          (WeatherApp.use_celsius self))
  /\ (forall cb reading,
        (cb, Some reading) ∈ AsyncRunner.after_queue (WeatherApp.root self) ->
        renders_both format_0f reading).

(* ====================================================================== *)
(** * The appearance mode *)
(* ====================================================================== *)

Module Theme.

(** What [_toggle_theme] reads and writes: the appearance mode of the
    toolkit, kept as the string [get_appearance_mode()] returns for it
    ("Light" or "Dark"), and the text of the theme button. *)
Record t : Type := {
  appearance_mode : string;
  theme_btn : string
}.

(** The two texts of the theme button, spelled as the source file spells
    them. *)
Definition sun : string := "‚òÄ".

Definition moon : string := "üåô".

(** [ctk.get_appearance_mode()]. *)
Definition get_appearance_mode : M t string :=
  fun s => (Returned (appearance_mode s), s).

(** [ctk.set_appearance_mode(mode_string)] for the two modes the program
    passes; any other string leaves the mode alone here. *)
Definition set_appearance_mode (mode_string : string) : M t unit :=
  modify (fun s =>
    {| appearance_mode :=
         if String.eqb mode_string "dark" then "Dark"
         else if String.eqb mode_string "light" then "Light"
         else appearance_mode s;
       theme_btn := theme_btn s |}).

(** [self.theme_btn.configure(text=...)]. *)
Definition configure_theme_btn (text : string) : M t unit :=
  modify (fun s => {| appearance_mode := appearance_mode s; theme_btn := text |}).

Definition _toggle_theme : M t unit :=
  current <- get_appearance_mode ;;
  let new_mode := if String.eqb current "Dark" then "light" else "dark" in
  set_appearance_mode new_mode ;;
  configure_theme_btn (if String.eqb new_mode "light" then moon else sun).

(** The module sets the dark mode when it is loaded, and [_create_ui]
    gives the button the sun. *)
Definition initial : t := {| appearance_mode := "Dark"; theme_btn := sun |}.

(** [n] presses of the theme button. *)
Fixpoint presses (n : nat) (s : t) : t :=
  match n with
  | O => s
  | S n' => presses n' (snd (_toggle_theme s))
  end.

End Theme.

(* ====================================================================== *)
(** * More sample data *)
(* ====================================================================== *)

(** An answer of the location provider without a city, and a network on
    which the location provider gives it. *)
Definition location_without_city : pyval :=
  JDict (<["region" := JStr "Bavaria"]> ∅).

Definition network_no_city : Request -> http_result :=
  fun rq =>
    if String.eqb (url rq) IPINFO_URL
    then Answer {| status_code := 200; body := Some location_without_city |}
    else Answer {| status_code := 200; body := Some paris_weather |}.

(** A network on which every body is the empty list. *)
Definition network_list_body : Request -> http_result :=
  always {| status_code := 200; body := Some (JList []) |}.

(** The reading of Paris with a text where the Fahrenheit temperature
    should be, and with a text where the Celsius temperature should be. *)
Definition paris_without_fahrenheit : WeatherData :=
  with_imperial paris_reading (JStr "n/a") (JFloat 1.0) (JFloat 2.0).

Definition paris_without_celsius : WeatherData :=
  with_metric paris_reading (JStr "n/a") (JFloat 17.5) (JFloat 12.0).

(** The window showing the reading of Paris after the fetch of the start,
    and the window showing the reading without a Fahrenheit temperature. *)
Definition showing_paris : WeatherApp.t :=
  WeatherApp.run my_key sample_str sample_format_0f
    [WeatherApp.thread_ends 0 network_up; WeatherApp.mainloop_after]
    WeatherApp.__init__.

Definition showing_without_fahrenheit : WeatherApp.t :=
  WeatherApp.tk_call
    (WeatherApp._handle_weather_result sample_str sample_format_0f
       (Some paris_without_fahrenheit))
    WeatherApp.__init__.




(** The window with two callbacks queued: the failure of the search for
    Paris, then the reading of the fetch of the start. *)
Definition two_queued : WeatherApp.t :=
  WeatherApp.run my_key sample_str sample_format_0f
    [WeatherApp.thread_ends 1 network_down; WeatherApp.thread_ends 0 network_up]
    two_in_flight.

(* ====================================================================== *)
(** * Properties of the services *)
(* ====================================================================== *)

Lemma subscript_Returned (obj : pyval) (key : string) (v : pyval) :
  subscript obj key = Returned v -> at_path obj [key] = Some v.
Proof.
  destruct obj; simpl; try discriminate.
  destruct (entries !! key) as [x|]; simpl; congruence.
Qed.

Lemma subscript_not_RequestException (obj : pyval) (key : string) (e : RequestException) :
  subscript obj key <> Raised (Requests e).
Proof.
  destruct obj; simpl; try discriminate.
  destruct (entries !! key); discriminate.
Qed.

Lemma at_path_cons (data v : pyval) (key : string) (rest : list string) :
  at_path data [key] = Some v -> at_path data (key :: rest) = at_path v rest.
Proof.
  destruct data; simpl; try discriminate.
  destruct (entries !! key) as [x|]; simpl; congruence.
Qed.

Lemma at_path_2 (data x v : pyval) (k1 k2 : string) :
  at_path data [k1] = Some x -> at_path x [k2] = Some v ->
  at_path data [k1; k2] = Some v.
Proof. intros H1 H2. rewrite (at_path_cons _ _ _ _ H1). exact H2. Qed.

Lemma at_path_3 (data x y v : pyval) (k1 k2 k3 : string) :
  at_path data [k1] = Some x -> at_path x [k2] = Some y -> at_path y [k3] = Some v ->
  at_path data [k1; k2; k3] = Some v.
Proof.
  intros H1 H2 H3. rewrite (at_path_cons _ _ _ _ H1). exact (at_path_2 _ _ _ _ _ H2 H3).
Qed.

(** Under a configured key [get_weather] sends exactly one request, the
    one of [weather_request], whatever comes of it. *)
Lemma get_weather_sends_one (API_KEY : string) (query : pyval) (w : World) :
  String.eqb API_KEY YOUR_WEATHERAPI_KEY = false ->
  sent (snd (WeatherService.get_weather API_KEY query w))
  = (sent w ++ [weather_request API_KEY query])%list.
Proof.
  intros Hkey. unfold WeatherService.get_weather. rewrite Hkey.
  unfold try_except_RequestException, bind, requests_get, lift, ret.
  fold (weather_request API_KEY query).
  destruct (net w (weather_request API_KEY query)) as [e|response]; [reflexivity|].
  destruct (raise_for_status response) as [[]|[]]; try reflexivity.
  destruct (json response) as [data|[]]; try reflexivity.
  repeat match goal with
         | |- context [subscript ?o ?k] => destruct (subscript o k) as [?|[]]; try reflexivity
         end.
Qed.


Lemma get_weather_error_status (API_KEY : string) (query : pyval) (w : World) (response : Response) :
  String.eqb API_KEY YOUR_WEATHERAPI_KEY = false ->
  net w (weather_request API_KEY query) = Answer response ->
  400 <= status_code response < 600 ->
  fst (WeatherService.get_weather API_KEY query w) = Returned None.
Proof.
  intros Hkey Hnet Hstatus. unfold WeatherService.get_weather. rewrite Hkey.
  unfold try_except_RequestException, bind, requests_get, lift, raise_for_status.
  fold (weather_request API_KEY query). rewrite Hnet.
  replace (400 <=? status_code response) with true by (symmetry; apply Z.leb_le; lia).
  replace (status_code response <? 600) with true by (symmetry; apply Z.ltb_lt; lia).
  reflexivity.
Qed.


(** A reading that [get_weather] returns under a configured key is whole:
    the provider answered, the body decoded, and every field of the
    reading is the member of the body it is named after. *)
Lemma get_weather_reading (API_KEY : string) (query : pyval) (w : World) (reading : WeatherData) :
  String.eqb API_KEY YOUR_WEATHERAPI_KEY = false ->
  fst (WeatherService.get_weather API_KEY query w) = Returned (Some reading) ->
  exists response data,
    net w (weather_request API_KEY query) = Answer response
    /\ body response = Some data
    /\ provider_reading data = Some reading.
Proof.
  intros Hkey. unfold WeatherService.get_weather. rewrite Hkey.
  unfold try_except_RequestException, bind, requests_get, lift, ret, json.
  fold (weather_request API_KEY query).
  destruct (net w (weather_request API_KEY query)) as [e|response] eqn:Hnet; [discriminate|].
  destruct (raise_for_status response) as [[]|[]]; try discriminate.
  destruct (body response) as [data|] eqn:Hbody; [|discriminate].
  intros H. exists response, data. split; [reflexivity|]. split; [exact Hbody|].
  revert H.
  repeat match goal with
         | |- context [subscript ?o ?k] =>
             let E := fresh "E" in
             destruct (subscript o k) as [?|[]] eqn:E;
             [apply subscript_Returned in E | try discriminate ..]
         end.
  simpl. intros [= <-].
  unfold provider_reading.
  repeat (first [ erewrite at_path_2 by eassumption
                | erewrite at_path_3 by eassumption ];
          cbn [mbind option_bind]).
  reflexivity.
Qed.

(** And such a reading is returned whenever the provider answers with a
    status that is no error and a body in which every member is present. *)
Lemma get_weather_returns_reading (API_KEY : string) (query : pyval) (w : World)
    (response : Response) (data : pyval) (reading : WeatherData) :
  String.eqb API_KEY YOUR_WEATHERAPI_KEY = false ->
  net w (weather_request API_KEY query) = Answer response ->
  raise_for_status response = Returned tt ->
  body response = Some data ->
  provider_reading data = Some reading ->
  fst (WeatherService.get_weather API_KEY query w) = Returned (Some reading).
Proof.
  intros Hkey Hnet Hstatus Hbody.
  unfold WeatherService.get_weather. rewrite Hkey.
  unfold try_except_RequestException, bind, requests_get, lift, json, ret.
  fold (weather_request API_KEY query). rewrite Hnet, Hstatus, Hbody.
  unfold provider_reading.
  destruct data as [| | | | | |entries]; try discriminate.
  cbn [at_path subscript].
  destruct (entries !! "location") as [loc|]; [|discriminate].
  destruct (entries !! "current") as [cur|];
    [|destruct loc; cbn; repeat (match goal with |- context [?m !! ?k] => destruct (m !! k) end; cbn); discriminate].
  destruct loc as [| | | | | |location]; try discriminate.
  cbn [mbind option_bind at_path subscript].
  repeat (match goal with
          | |- context [location !! ?k] => destruct (location !! k) as [?|]; [|discriminate]
          end; cbn [mbind option_bind]).
  destruct cur as [| | | | | |current]; try discriminate.
  cbn [mbind option_bind at_path subscript].
  repeat (match goal with
          | |- context [current !! ?k] =>
              lazymatch k with
              | "condition" => fail
              | _ => destruct (current !! k) as [?|]; [|discriminate]
              end
          end; cbn [mbind option_bind]).
  destruct (current !! "condition") as [cond|]; [|discriminate].
  destruct cond as [| | | | | |cond]; try discriminate.
  cbn [mbind option_bind at_path subscript].
  repeat (match goal with
          | |- context [cond !! ?k] => destruct (cond !! k) as [?|]; [|discriminate]
          end; cbn [mbind option_bind]).
  repeat (match goal with
          | |- context [current !! ?k] => destruct (current !! k) as [?|]; [|discriminate]
          end; cbn [mbind option_bind]).
  cbn. congruence.
Qed.

(** C1 (defect).  The specification has [get_weather] return [None] for a
    2xx response that lacks a required field and never raise.  Under a
    configured key, a 200 response whose body is the empty object makes
    [data["location"]] raise [KeyError], which the handler for
    [RequestException] lets through: the call raises to its caller. *)
Theorem get_weather_missing_field_raises :
  fst (WeatherService.get_weather "my-key" (JStr "Paris")
         {| net := always {| status_code := 200; body := Some (JDict ∅) |};
            sent := [] |})
  = Raised (KeyError "location").
Proof. reflexivity. Qed.

(** The same for every configured key, query and network: a decoded
    object without the member ["location"] makes the call raise. *)
Lemma get_weather_without_location_raises
    (API_KEY : string) (query : pyval) (w : World) (response : Response)
    (entries : gmap string pyval) :
  String.eqb API_KEY YOUR_WEATHERAPI_KEY = false ->
  net w (weather_request API_KEY query) = Answer response ->
  raise_for_status response = Returned tt ->
  body response = Some (JDict entries) ->
  entries !! "location" = None ->
  fst (WeatherService.get_weather API_KEY query w) = Raised (KeyError "location").
Proof.
  intros Hkey Hnet Hstatus Hbody Hmissing.
  unfold WeatherService.get_weather. rewrite Hkey.
  unfold try_except_RequestException, bind, requests_get, lift, json.
  fold (weather_request API_KEY query).
  rewrite Hnet, Hstatus, Hbody. simpl. rewrite Hmissing. reflexivity.
Qed.

(** C8.  With the key left at the placeholder, [get_weather] returns the
    one sample reading for every query and leaves the world as it was: no
    request is sent and the network is never consulted.  The city of the
    sample is "Demo City". *)
Theorem get_weather_demo_mode (query : pyval) (w : World) :
  WeatherService.get_weather YOUR_WEATHERAPI_KEY query w
  = (Returned (Some WeatherService.demo_weather), w)
  /\ city WeatherService.demo_weather = JStr "Demo City".
Proof. split; reflexivity. Qed.

(** [get_location_from_ip] sends exactly one request, to the location
    provider. *)
Lemma get_location_sends_one (w : World) :
  sent (snd (LocationService.get_location_from_ip w)) = (sent w ++ [ipinfo_request])%list.
Proof.
  unfold LocationService.get_location_from_ip.
  unfold try_except_RequestException, bind, requests_get, lift, ret.
  fold ipinfo_request.
  destruct (net w ipinfo_request) as [e|response]; [reflexivity|].
  destruct (raise_for_status response) as [[]|[]]; try reflexivity.
  destruct (json response) as [data|[]]; try reflexivity.
  repeat match goal with
         | |- context [dict_get ?o ?k ?d] => destruct (dict_get o k d) as [?|[]]; try reflexivity
         end.
Qed.

(** C4.  The by-location chain is the location resolver followed, only
    when it returned a location, by the weather resolver on the city of
    that location.  When the location resolver returns [None] the chain
    returns [None] having sent the location request only: the requests
    sent to the weather provider are those sent before the chain began. *)
Theorem by_location_chain (API_KEY : string) (w : World) :
  WeatherApp.call_task API_KEY task_by_location w
  = match LocationService.get_location_from_ip w with
    | (Returned (Some location), w') =>
        WeatherService.get_weather API_KEY (LocationData.city location) w'
    | (Returned None, w') => (Returned None, w')
    | (Raised e, w') => (Raised e, w')
    end
  /\ (fst (LocationService.get_location_from_ip w) = Returned None ->
      fst (WeatherApp.call_task API_KEY task_by_location w) = Returned None
      /\ sent (snd (WeatherApp.call_task API_KEY task_by_location w))
         = (sent w ++ [ipinfo_request])%list
      /\ weather_provider_calls (sent (snd (WeatherApp.call_task API_KEY task_by_location w)))
         = weather_provider_calls (sent w)).
Proof.
  assert (Heq : WeatherApp.call_task API_KEY task_by_location w
    = match LocationService.get_location_from_ip w with
      | (Returned (Some location), w') =>
          WeatherService.get_weather API_KEY (LocationData.city location) w'
      | (Returned None, w') => (Returned None, w')
      | (Raised e, w') => (Raised e, w')
      end).
  { unfold WeatherApp.call_task, bind.
    destruct (LocationService.get_location_from_ip w) as [[[l|]|e] w']; reflexivity. }
  split; [exact Heq|].
  intros Hnone. rewrite Heq.
  pose proof (get_location_sends_one w) as Hlog.
  destruct (LocationService.get_location_from_ip w) as [o w'].
  simpl in Hnone, Hlog. subst o. cbn [fst snd].
  split; [reflexivity|]. split; [exact Hlog|].
  rewrite Hlog. unfold weather_provider_calls.
  rewrite filter_app. cbn. apply app_nil_r.
Qed.

(* ====================================================================== *)
(** * Properties of the card *)
(* ====================================================================== *)

Section CardProperties.

Variable py_str : pyval -> string.
Variable format_0f : pyval -> outcome string.

(** When [update_weather] returns, the card it leaves depends on the
    reading and the unit only. *)
Lemma update_weather_returned (weather : WeatherData) (celsius : bool)
    (card0 card : WeatherCard.t) :
  WeatherCard.update_weather py_str format_0f weather celsius card0 = (Returned tt, card) ->
  forall card1, WeatherCard.update_weather py_str format_0f weather celsius card1 = (Returned tt, card).
Proof.
  unfold WeatherCard.update_weather, bind, lift, modify.
  unfold WeatherCard.configure_location_label, WeatherCard.configure_region_label,
    WeatherCard.configure_temp_label, WeatherCard.configure_unit_label,
    WeatherCard.configure_condition_label, WeatherCard.configure_feels_like_value,
    WeatherCard.configure_humidity_value, WeatherCard.configure_wind_value,
    WeatherCard.configure_uv_value, WeatherCard.configure_updated_label, modify.
  destruct celsius; simpl;
    repeat match goal with
           | |- context [format_0f ?v] => destruct (format_0f v); simpl; try discriminate
           end;
    intros [= <-] card1; reflexivity.
Qed.

Lemma update_weather_displays (weather : WeatherData) (celsius : bool)
    (card0 card : WeatherCard.t) :
  WeatherCard.update_weather py_str format_0f weather celsius card0 = (Returned tt, card) ->
  card_displays py_str format_0f card weather celsius.
Proof. intros H. exact (update_weather_returned _ _ _ _ H card). Qed.

(** [update_weather] returns exactly when the reading renders. *)
Lemma update_weather_renders (weather : WeatherData) (celsius : bool) (card0 : WeatherCard.t) :
  renders format_0f weather celsius ->
  exists card, WeatherCard.update_weather py_str format_0f weather celsius card0 = (Returned tt, card).
Proof.
  unfold renders, WeatherCard.update_weather, bind, lift, modify.
  unfold WeatherCard.configure_location_label, WeatherCard.configure_region_label,
    WeatherCard.configure_temp_label, WeatherCard.configure_unit_label,
    WeatherCard.configure_condition_label, WeatherCard.configure_feels_like_value,
    WeatherCard.configure_humidity_value, WeatherCard.configure_wind_value,
    WeatherCard.configure_uv_value, WeatherCard.configure_updated_label, modify.
  destruct celsius; intros [[t Ht] [[f Hf] [w Hw]]]; simpl;
    rewrite Ht; simpl; rewrite Hf; simpl; rewrite Hw; simpl; eexists; reflexivity.
Qed.

Lemma card_displays_renders (card : WeatherCard.t) (weather : WeatherData) (celsius : bool) :
  card_displays py_str format_0f card weather celsius ->
  renders format_0f weather celsius.
Proof.
  unfold card_displays, renders, WeatherCard.update_weather, bind, lift, modify.
  unfold WeatherCard.configure_location_label, WeatherCard.configure_region_label,
    WeatherCard.configure_temp_label, WeatherCard.configure_unit_label,
    WeatherCard.configure_condition_label, WeatherCard.configure_feels_like_value,
    WeatherCard.configure_humidity_value, WeatherCard.configure_wind_value,
    WeatherCard.configure_uv_value, WeatherCard.configure_updated_label, modify.
  destruct celsius; simpl;
    repeat match goal with
           | |- context [format_0f ?v] => destruct (format_0f v); simpl; try discriminate
           end;
    intros _; repeat split; eexists; reflexivity.
Qed.

End CardProperties.

(* ====================================================================== *)
(** * Properties of [str.strip()] *)
(* ====================================================================== *)

Lemma lstrip_all_whitespace (s : list N) :
  all_whitespace s = true -> lstrip s = [].
Proof.
  induction s as [|c rest IH]; simpl; [reflexivity|].
  destruct (isspace c); simpl; [exact IH | discriminate].
Qed.

Lemma strip_all_whitespace (s : list N) :
  all_whitespace s = true -> strip s = [].
Proof. intros H. unfold strip. rewrite (lstrip_all_whitespace s H). reflexivity. Qed.

Lemma rstrip_empty (s : list N) :
  rstrip s = [] -> all_whitespace s = true.
Proof.
  induction s as [|c rest IH]; simpl; [reflexivity|].
  destruct (rstrip rest); [|discriminate].
  destruct (isspace c); [intros _; apply IH; reflexivity | discriminate].
Qed.

Lemma lstrip_whitespace_suffix (s : list N) :
  all_whitespace (lstrip s) = true -> all_whitespace s = true.
Proof.
  induction s as [|c rest IH]; simpl; [reflexivity|].
  destruct (isspace c) eqn:Hc; simpl; [exact IH|].
  rewrite Hc. discriminate.
Qed.

(** [strip] leaves nothing exactly of the strings made of whitespace. *)
Lemma strip_empty_iff (s : list N) :
  strip s = [] <-> all_whitespace s = true.
Proof.
  split; [|apply strip_all_whitespace].
  intros H. apply lstrip_whitespace_suffix, rstrip_empty, H.
Qed.

(* ====================================================================== *)
(** * Properties of the application *)
(* ====================================================================== *)

Section AppProperties.

Variable API_KEY : string.
Variable py_str : pyval -> string.
Variable format_0f : pyval -> outcome string.

(** ** What each method leaves *)

Lemma show_loading_effect (self : WeatherApp.t) :
  WeatherApp._show_loading self
  = (Returned tt,
     {| WeatherApp.current_weather := WeatherApp.current_weather self;
        WeatherApp.use_celsius := WeatherApp.use_celsius self;
        WeatherApp.unit_btn := WeatherApp.unit_btn self;
        WeatherApp.search_entry := WeatherApp.search_entry self;
        WeatherApp.weather_card := WeatherApp.weather_card self;
        WeatherApp.weather_card_packed := false;
        WeatherApp.loading_spinner_packed := true;
        WeatherApp.error_display := WeatherApp.error_display self;
        WeatherApp.error_display_packed := false;
        WeatherApp.root := WeatherApp.root self |}).
Proof. reflexivity. Qed.

Lemma handle_failure_effect (self : WeatherApp.t) :
  WeatherApp._handle_weather_result py_str format_0f None self
  = (Returned tt,
     {| WeatherApp.current_weather := WeatherApp.current_weather self;
        WeatherApp.use_celsius := WeatherApp.use_celsius self;
        WeatherApp.unit_btn := WeatherApp.unit_btn self;
        WeatherApp.search_entry := WeatherApp.search_entry self;
        WeatherApp.weather_card := WeatherApp.weather_card self;
        WeatherApp.weather_card_packed := false;
        WeatherApp.loading_spinner_packed := false;
        WeatherApp.error_display :=
          {| ErrorDisplay.retry_callback :=
               ErrorDisplay.retry_callback (WeatherApp.error_display self);
             ErrorDisplay.message_label := fetch_failed_message;
             ErrorDisplay.retry_btn :=
               ErrorDisplay.retry_btn (WeatherApp.error_display self) |};
        WeatherApp.error_display_packed := true;
        WeatherApp.root := WeatherApp.root self |}).
Proof. reflexivity. Qed.

(** The handler on a reading: the reading is stored first; the card is
    written; the card is shown only when the writing came to its end. *)
Lemma handle_reading_effect (w : WeatherData) (self : WeatherApp.t) :
  WeatherApp._handle_weather_result py_str format_0f (Some w) self
  = match WeatherCard.update_weather py_str format_0f w (WeatherApp.use_celsius self)
            (WeatherApp.weather_card self) with
    | (Returned _, card) =>
        (Returned tt,
         {| WeatherApp.current_weather := Some w;
            WeatherApp.use_celsius := WeatherApp.use_celsius self;
            WeatherApp.unit_btn := WeatherApp.unit_btn self;
            WeatherApp.search_entry := WeatherApp.search_entry self;
            WeatherApp.weather_card := card;
            WeatherApp.weather_card_packed := true;
            WeatherApp.loading_spinner_packed := false;
            WeatherApp.error_display := WeatherApp.error_display self;
            WeatherApp.error_display_packed := false;
            WeatherApp.root := WeatherApp.root self |})
    | (Raised e, card) =>
        (Raised e,
         {| WeatherApp.current_weather := Some w;
            WeatherApp.use_celsius := WeatherApp.use_celsius self;
            WeatherApp.unit_btn := WeatherApp.unit_btn self;
            WeatherApp.search_entry := WeatherApp.search_entry self;
            WeatherApp.weather_card := card;
            WeatherApp.weather_card_packed := WeatherApp.weather_card_packed self;
            WeatherApp.loading_spinner_packed := WeatherApp.loading_spinner_packed self;
            WeatherApp.error_display := WeatherApp.error_display self;
            WeatherApp.error_display_packed := WeatherApp.error_display_packed self;
            WeatherApp.root := WeatherApp.root self |})
    end.
Proof.
  unfold WeatherApp._handle_weather_result, WeatherApp.weather_card_update_weather.
  unfold bind, zoom, get, WeatherApp.set_current_weather, modify. simpl.
  destruct (WeatherCard.update_weather py_str format_0f w (WeatherApp.use_celsius self)
              (WeatherApp.weather_card self)) as [[[]|e] card]; reflexivity.
Qed.

Lemma toggle_unit_effect (self : WeatherApp.t) :
  snd (WeatherApp._toggle_unit py_str format_0f self)
  = {| WeatherApp.current_weather := WeatherApp.current_weather self;
       WeatherApp.use_celsius := negb (WeatherApp.use_celsius self);
       WeatherApp.unit_btn :=
         if WeatherApp.use_celsius self then degree ++ "C" else degree ++ "F";
       WeatherApp.search_entry := WeatherApp.search_entry self;
       WeatherApp.weather_card :=
         match WeatherApp.current_weather self with
         | Some w =>
             snd (WeatherCard.update_weather py_str format_0f w
                    (negb (WeatherApp.use_celsius self)) (WeatherApp.weather_card self))
         | None => WeatherApp.weather_card self
         end;
       WeatherApp.weather_card_packed := WeatherApp.weather_card_packed self;
       WeatherApp.loading_spinner_packed := WeatherApp.loading_spinner_packed self;
       WeatherApp.error_display := WeatherApp.error_display self;
       WeatherApp.error_display_packed := WeatherApp.error_display_packed self;
       WeatherApp.root := WeatherApp.root self |}.
Proof.
  unfold WeatherApp._toggle_unit, WeatherApp.weather_card_update_weather.
  unfold bind, zoom, get, WeatherApp.set_use_celsius, WeatherApp.set_unit_btn, modify, ret.
  simpl. rewrite negb_involutive.
  destruct (WeatherApp.current_weather self) as [w|]; [|reflexivity].
  simpl.
  destruct (WeatherCard.update_weather py_str format_0f w
              (negb (WeatherApp.use_celsius self)) (WeatherApp.weather_card self))
    as [o card]; reflexivity.
Qed.

(** ** The completion handler *)

(** C6.  On a failed fetch (the result handed over is [None]) the handler
    returns, the view is [Failed] with the fixed message, and the stored
    reading is the one stored before; the card and the unit are not
    touched either. *)
Theorem handle_failure_keeps_reading (self : WeatherApp.t) :
  let self' := WeatherApp.tk_call
                 (WeatherApp._handle_weather_result py_str format_0f None) self in
  fst (WeatherApp._handle_weather_result py_str format_0f None self) = Returned tt
  /\ shows py_str format_0f self' (Failed fetch_failed_message)
  /\ WeatherApp.current_weather self' = WeatherApp.current_weather self
  /\ WeatherApp.weather_card self' = WeatherApp.weather_card self
  /\ WeatherApp.use_celsius self' = WeatherApp.use_celsius self.
Proof.
  unfold WeatherApp.tk_call. rewrite handle_failure_effect. simpl.
  repeat split; reflexivity.
Qed.

(** On a reading that renders, the handler stores it and shows it in the
    current unit. *)
Lemma handle_reading_shows (w : WeatherData) (self : WeatherApp.t) :
  renders format_0f w (WeatherApp.use_celsius self) ->
  shows py_str format_0f
    (WeatherApp.tk_call (WeatherApp._handle_weather_result py_str format_0f (Some w)) self)
    (Showing w (WeatherApp.use_celsius self)).
Proof.
  intros Hr. unfold WeatherApp.tk_call. rewrite handle_reading_effect.
  destruct (update_weather_renders py_str format_0f w (WeatherApp.use_celsius self)
              (WeatherApp.weather_card self) Hr) as [card Hcard].
  rewrite Hcard. simpl. repeat split; try reflexivity.
  exact (update_weather_displays _ _ _ _ _ _ Hcard).
Qed.

(** Whether it returns or raises, the handler stores the reading. *)
Lemma handle_reading_stores (w : WeatherData) (self : WeatherApp.t) :
  WeatherApp.current_weather
    (WeatherApp.tk_call (WeatherApp._handle_weather_result py_str format_0f (Some w)) self)
  = Some w.
Proof.
  unfold WeatherApp.tk_call. rewrite handle_reading_effect.
  destruct (WeatherCard.update_weather py_str format_0f w (WeatherApp.use_celsius self)
              (WeatherApp.weather_card self)) as [[[]|e] card]; reflexivity.
Qed.

(** ** Search *)

(** C7.  When the search entry is empty or holds whitespace only,
    [_search_city] returns at once: the application, threads and queued
    callbacks included, is exactly what it was, whether the search was
    submitted with the button or with the Return key. *)
Theorem search_blank_changes_nothing (self : WeatherApp.t) :
  all_whitespace (WeatherApp.search_entry self) = true ->
  WeatherApp._search_city self = (Returned tt, self)
  /\ WeatherApp.step API_KEY py_str format_0f WeatherApp.click_search_btn self = self
  /\ WeatherApp.step API_KEY py_str format_0f WeatherApp.press_return self = self.
Proof.
  intros Hblank.
  assert (H : WeatherApp._search_city self = (Returned tt, self)).
  { unfold WeatherApp._search_city, bind, get.
    rewrite (strip_all_whitespace _ Hblank). reflexivity. }
  split; [exact H|].
  split; simpl; unfold WeatherApp.tk_call; rewrite H; reflexivity.
Qed.

(** A search that is not blank enters [Loading] and starts the search
    chain on the stripped text. *)
Lemma search_effect (self : WeatherApp.t) :
  all_whitespace (WeatherApp.search_entry self) = false ->
  WeatherApp._search_city self
  = (Returned tt,
     {| WeatherApp.current_weather := WeatherApp.current_weather self;
        WeatherApp.use_celsius := WeatherApp.use_celsius self;
        WeatherApp.unit_btn := WeatherApp.unit_btn self;
        WeatherApp.search_entry := WeatherApp.search_entry self;
        WeatherApp.weather_card := WeatherApp.weather_card self;
        WeatherApp.weather_card_packed := false;
        WeatherApp.loading_spinner_packed := true;
        WeatherApp.error_display := WeatherApp.error_display self;
        WeatherApp.error_display_packed := false;
        WeatherApp.root :=
          AsyncRunner.run (task_search (strip (WeatherApp.search_entry self)))
            self_handle_weather_result (WeatherApp.root self) |}).
Proof.
  intros Hnb. unfold WeatherApp._search_city, bind, get.
  destruct (strip (WeatherApp.search_entry self)) as [|c rest] eqn:Hs.
  - apply strip_empty_iff in Hs. congruence.
  - reflexivity.
Qed.

Lemma fetch_by_location_effect (self : WeatherApp.t) :
  WeatherApp._fetch_weather_by_location self
  = (Returned tt,
     {| WeatherApp.current_weather := WeatherApp.current_weather self;
        WeatherApp.use_celsius := WeatherApp.use_celsius self;
        WeatherApp.unit_btn := WeatherApp.unit_btn self;
        WeatherApp.search_entry := WeatherApp.search_entry self;
        WeatherApp.weather_card := WeatherApp.weather_card self;
        WeatherApp.weather_card_packed := false;
        WeatherApp.loading_spinner_packed := true;
        WeatherApp.error_display := WeatherApp.error_display self;
        WeatherApp.error_display_packed := false;
        WeatherApp.root :=
          AsyncRunner.run task_by_location self_handle_weather_result
            (WeatherApp.root self) |}).
Proof. reflexivity. Qed.

(** ** Unit toggle *)

(** C9.  Two presses of the unit button in a row leave the unit
    preference and the stored reading as they were, and the view state
    the application showed before is the one it shows after: the same
    frame, and for [Showing] the same reading under the same unit on the
    card. *)
Theorem toggle_unit_twice (self : WeatherApp.t) :
  let self'' := WeatherApp.step API_KEY py_str format_0f WeatherApp.click_unit_btn
                  (WeatherApp.step API_KEY py_str format_0f WeatherApp.click_unit_btn self) in
  WeatherApp.use_celsius self'' = WeatherApp.use_celsius self
  /\ WeatherApp.current_weather self'' = WeatherApp.current_weather self
  /\ packed self'' = packed self
  /\ (forall v, shows py_str format_0f self v -> shows py_str format_0f self'' v).
Proof.
  simpl. unfold WeatherApp.tk_call. rewrite !toggle_unit_effect. simpl.
  rewrite negb_involutive.
  split; [reflexivity|]. split; [reflexivity|]. split; [reflexivity|].
  intros [|w c|m]; unfold shows, packed; simpl; try (intros H; exact H).
  intros (Hp & Hw & Hc & Hd). rewrite Hw. repeat split; try assumption.
  unfold card_displays in *. simpl. rewrite Hc.
  rewrite !(update_weather_returned _ _ _ _ _ _ Hd). reflexivity.
Qed.

(** ** The runner *)

(** A thread started by [run] and run to its end: a task that returns
    has its callback queued once, with the value; a task that raises
    leaves the root as it was before [run]. *)
Lemma run_then_thread_ends {Task Callback Result : Type}
    (call : Task -> outcome Result) (f : Task) (cb : Callback)
    (root : AsyncRunner.Root Task Callback Result) :
  AsyncRunner.thread_ends call (length (AsyncRunner.threads root)) (AsyncRunner.run f cb root)
  = match call f with
    | Returned result => AsyncRunner.after cb result root
    | Raised _ => root
    end.
Proof.
  destruct root as [ts q].
  unfold AsyncRunner.thread_ends, AsyncRunner.run, AsyncRunner.worker, AsyncRunner.after.
  cbn [AsyncRunner.threads AsyncRunner.after_queue].
  rewrite (list_lookup_middle ts [] (f, cb) (length ts) eq_refl).
  rewrite (delete_middle ts [] (f, cb)), app_nil_r.
  destruct (call f); reflexivity.
Qed.

(** C10.  A task handed to the runner and run to its end on a worker
    thread: when it returns a value, [None] included, the application is
    what it was with exactly one callback added at the end of the queue,
    carrying that value; when it raises, the application is exactly what
    it was before the run, with no callback queued and the view state
    untouched.  In both cases the thread is gone and the view state is
    the one shown before. *)
Theorem task_result_scheduled_once (self : WeatherApp.t) (f : task) (cb : callback)
    (network : Request -> http_result) :
  let started := snd (WeatherApp.AsyncRunner_run f cb self) in
  let ended :=
    WeatherApp.step API_KEY py_str format_0f
      (WeatherApp.thread_ends (length (AsyncRunner.threads (WeatherApp.root self))) network)
      started in
  match fst (WeatherApp.call_task API_KEY f {| net := network; sent := [] |}) with
  | Returned result =>
      ended = snd (WeatherApp.set_root
                     (AsyncRunner.after cb result (WeatherApp.root self)) self)
      /\ AsyncRunner.after_queue (WeatherApp.root ended)
         = (AsyncRunner.after_queue (WeatherApp.root self) ++ [(cb, result)])%list
  | Raised _ =>
      ended = self
  end
  /\ AsyncRunner.threads (WeatherApp.root ended) = AsyncRunner.threads (WeatherApp.root self)
  /\ (forall v, shows py_str format_0f self v -> shows py_str format_0f ended v).
Proof.
  cbn zeta.
  assert (Hend : WeatherApp.step API_KEY py_str format_0f
            (WeatherApp.thread_ends (length (AsyncRunner.threads (WeatherApp.root self))) network)
            (snd (WeatherApp.AsyncRunner_run f cb self))
          = snd (WeatherApp.set_root
                   match fst (WeatherApp.call_task API_KEY f {| net := network; sent := [] |}) with
                   | Returned result => AsyncRunner.after cb result (WeatherApp.root self)
                   | Raised _ => WeatherApp.root self
                   end self)).
  { unfold WeatherApp.step, WeatherApp.AsyncRunner_run, bind, get. simpl.
    rewrite (run_then_thread_ends
               (fun f0 => fst (WeatherApp.call_task API_KEY f0 {| net := network; sent := [] |}))).
    reflexivity. }
  rewrite Hend.
  destruct (fst (WeatherApp.call_task API_KEY f {| net := network; sent := [] |}))
    as [result|e]; simpl.
  - split; [split; reflexivity|]. split; [reflexivity|].
    intros [|w c|m] H; exact H.
  - destruct self as [? ? ? ? ? ? ? ? ? [ts q]]; simpl.
    split; [reflexivity|]. split; [reflexivity|].
    intros [|w c|m] H; exact H.
Qed.

(** ** Retry *)

Lemma search_city_keeps_retry (self : WeatherApp.t) :
  retry_command (snd (WeatherApp._search_city self)) = retry_command self.
Proof.
  destruct (all_whitespace (WeatherApp.search_entry self)) eqn:Hb.
  - unfold WeatherApp._search_city, bind, get.
    rewrite (strip_all_whitespace _ Hb). reflexivity.
  - rewrite (search_effect self Hb). reflexivity.
Qed.

Lemma call_command_keeps_retry (c : command) (self : WeatherApp.t) :
  retry_command (snd (WeatherApp.call_command py_str format_0f c self)) = retry_command self.
Proof.
  destruct c; simpl.
  - rewrite toggle_unit_effect. reflexivity.
  - apply search_city_keeps_retry.
  - reflexivity.
Qed.

Lemma handler_keeps_retry (result : option WeatherData) (self : WeatherApp.t) :
  retry_command (snd (WeatherApp._handle_weather_result py_str format_0f result self))
  = retry_command self.
Proof.
  destruct result as [w|].
  - rewrite handle_reading_effect.
    destruct (WeatherCard.update_weather py_str format_0f w (WeatherApp.use_celsius self)
                (WeatherApp.weather_card self)) as [[[]|e] card]; reflexivity.
  - reflexivity.
Qed.

(** No event replaces the command of the retry button. *)
Lemma step_keeps_retry (e : WeatherApp.event) (self : WeatherApp.t) :
  retry_command (WeatherApp.step API_KEY py_str format_0f e self) = retry_command self.
Proof.
  destruct e; simpl; unfold WeatherApp.tk_call;
    try apply call_command_keeps_retry; try apply search_city_keeps_retry;
    try reflexivity.
  - rewrite toggle_unit_effect. reflexivity.
  - destruct (AsyncRunner.next_after (WeatherApp.root self)) as [[[cb result] root']|];
      [|reflexivity].
    destruct cb. unfold bind. simpl.
    rewrite handler_keeps_retry. reflexivity.
Qed.

Lemma run_keeps_retry (events : list WeatherApp.event) (self : WeatherApp.t) :
  retry_command (WeatherApp.run API_KEY py_str format_0f events self) = retry_command self.
Proof.
  unfold WeatherApp.run. revert self.
  induction events as [|e events IH]; intros self; cbn [fold_left]; [reflexivity|].
  rewrite IH. apply step_keeps_retry.
Qed.

(** C2, as the code has it.  In every execution, whatever fetch failed
    last, the retry button does what the location button does: the view
    becomes [Loading] and one thread is started, on the by-location
    chain; nothing else changes. *)
Theorem retry_fetches_by_location (events : list WeatherApp.event) :
  let self := WeatherApp.run API_KEY py_str format_0f events WeatherApp.__init__ in
  let self' := WeatherApp.step API_KEY py_str format_0f WeatherApp.click_retry_btn self in
  self' = WeatherApp.step API_KEY py_str format_0f WeatherApp.click_location_btn self
  /\ shows py_str format_0f self' Loading
  /\ AsyncRunner.threads (WeatherApp.root self')
     = (AsyncRunner.threads (WeatherApp.root self)
          ++ [(task_by_location, self_handle_weather_result)])%list
  /\ AsyncRunner.after_queue (WeatherApp.root self')
     = AsyncRunner.after_queue (WeatherApp.root self)
  /\ WeatherApp.current_weather self' = WeatherApp.current_weather self
  /\ WeatherApp.use_celsius self' = WeatherApp.use_celsius self.
Proof.
  cbn zeta.
  set (self := WeatherApp.run API_KEY py_str format_0f events WeatherApp.__init__).
  assert (Hcmd : retry_command self = self_fetch_weather_by_location).
  { unfold self. rewrite run_keeps_retry. reflexivity. }
  assert (Hstep : WeatherApp.step API_KEY py_str format_0f WeatherApp.click_retry_btn self
                  = snd (WeatherApp._fetch_weather_by_location self)).
  { simpl. unfold WeatherApp.tk_call. fold (retry_command self). rewrite Hcmd. reflexivity. }
  rewrite Hstep, fetch_by_location_effect. simpl.
  repeat split; reflexivity.
Qed.

(** ** Completions *)

Lemma handler_determines_view (result : option WeatherData) (self : WeatherApp.t) :
  result_renders format_0f result (WeatherApp.use_celsius self) ->
  shows py_str format_0f
    (WeatherApp.tk_call (WeatherApp._handle_weather_result py_str format_0f result) self)
    (view_of_result result (WeatherApp.use_celsius self)).
Proof.
  destruct result as [w|]; cbn [view_of_result result_renders].
  - apply handle_reading_shows.
  - intros _. unfold WeatherApp.tk_call. rewrite handle_failure_effect.
    split; reflexivity.
Qed.

Lemma handler_keeps_root_and_unit (result : option WeatherData) (self : WeatherApp.t) :
  let self' := snd (WeatherApp._handle_weather_result py_str format_0f result self) in
  WeatherApp.root self' = WeatherApp.root self
  /\ WeatherApp.use_celsius self' = WeatherApp.use_celsius self.
Proof.
  destruct result as [w|]; cbn zeta.
  - rewrite handle_reading_effect.
    destruct (WeatherCard.update_weather py_str format_0f w (WeatherApp.use_celsius self)
                (WeatherApp.weather_card self)) as [[[]|e] card]; split; reflexivity.
  - split; reflexivity.
Qed.

(** A thread that ends: it leaves the list of threads, and its callback
    joins the queue when its task returned. *)
Lemma thread_ends_effect (self : WeatherApp.t) (i : nat) (f : task) (cb : callback)
    (network : Request -> http_result) :
  AsyncRunner.threads (WeatherApp.root self) !! i = Some (f, cb) ->
  WeatherApp.step API_KEY py_str format_0f (WeatherApp.thread_ends i network) self
  = snd (WeatherApp.set_root
           {| AsyncRunner.threads := delete i (AsyncRunner.threads (WeatherApp.root self));
              AsyncRunner.after_queue :=
                match task_outcome API_KEY f network with
                | Returned result =>
                    (AsyncRunner.after_queue (WeatherApp.root self) ++ [(cb, result)])%list
                | Raised _ => AsyncRunner.after_queue (WeatherApp.root self)
                end |} self).
Proof.
  intros Hi. unfold WeatherApp.step, AsyncRunner.thread_ends, AsyncRunner.worker.
  rewrite Hi. unfold task_outcome.
  destruct (fst (WeatherApp.call_task API_KEY f {| net := network; sent := [] |}));
    reflexivity.
Qed.

(** The main loop runs the oldest queued callback. *)
Lemma mainloop_after_effect (self : WeatherApp.t) (result : option WeatherData)
    (rest : list (callback * option WeatherData)) :
  AsyncRunner.after_queue (WeatherApp.root self) = (self_handle_weather_result, result) :: rest ->
  WeatherApp.step API_KEY py_str format_0f WeatherApp.mainloop_after self
  = WeatherApp.tk_call (WeatherApp._handle_weather_result py_str format_0f result)
      (snd (WeatherApp.set_root
              {| AsyncRunner.threads := AsyncRunner.threads (WeatherApp.root self);
                 AsyncRunner.after_queue := rest |} self)).
Proof.
  intros Hq. unfold WeatherApp.step, AsyncRunner.next_after. rewrite Hq. reflexivity.
Qed.



(** What the two kinds of step that move a completion along do to the
    root and to the unit. *)
Lemma thread_ends_root (self : WeatherApp.t) (i : nat) (f : task) (cb : callback)
    (network : Request -> http_result) (result : option WeatherData) :
  AsyncRunner.threads (WeatherApp.root self) !! i = Some (f, cb) ->
  task_outcome API_KEY f network = Returned result ->
  let self' := WeatherApp.step API_KEY py_str format_0f (WeatherApp.thread_ends i network) self in
  WeatherApp.root self'
  = {| AsyncRunner.threads := delete i (AsyncRunner.threads (WeatherApp.root self));
       AsyncRunner.after_queue :=
         (AsyncRunner.after_queue (WeatherApp.root self) ++ [(cb, result)])%list |}
  /\ WeatherApp.use_celsius self' = WeatherApp.use_celsius self.
Proof.
  intros Hi Hf. cbn zeta. rewrite (thread_ends_effect self i f cb network Hi), Hf.
  split; reflexivity.
Qed.

Lemma mainloop_after_root (self : WeatherApp.t) (result : option WeatherData)
    (rest : list (callback * option WeatherData)) :
  AsyncRunner.after_queue (WeatherApp.root self) = (self_handle_weather_result, result) :: rest ->
  let self' := WeatherApp.step API_KEY py_str format_0f WeatherApp.mainloop_after self in
  WeatherApp.root self'
  = {| AsyncRunner.threads := AsyncRunner.threads (WeatherApp.root self);
       AsyncRunner.after_queue := rest |}
  /\ WeatherApp.use_celsius self' = WeatherApp.use_celsius self.
Proof.
  intros Hq. cbn zeta. rewrite (mainloop_after_effect self result rest Hq).
  unfold WeatherApp.tk_call.
  destruct (handler_keeps_root_and_unit result
              (snd (WeatherApp.set_root
                      {| AsyncRunner.threads := AsyncRunner.threads (WeatherApp.root self);
                         AsyncRunner.after_queue := rest |} self))) as [Hr Hu].
  rewrite Hr, Hu. split; reflexivity.
Qed.

(** The callback the main loop runs decides the view. *)
Lemma mainloop_after_view (self : WeatherApp.t) (result : option WeatherData)
    (rest : list (callback * option WeatherData)) :
  AsyncRunner.after_queue (WeatherApp.root self) = (self_handle_weather_result, result) :: rest ->
  result_renders format_0f result (WeatherApp.use_celsius self) ->
  shows py_str format_0f
    (WeatherApp.step API_KEY py_str format_0f WeatherApp.mainloop_after self)
    (view_of_result result (WeatherApp.use_celsius self)).
Proof.
  intros Hq Hr. rewrite (mainloop_after_effect self result rest Hq).
  exact (handler_determines_view result
           (snd (WeatherApp.set_root
                   {| AsyncRunner.threads := AsyncRunner.threads (WeatherApp.root self);
                      AsyncRunner.after_queue := rest |} self)) Hr).
Qed.


(** ** Successful chains *)




End AppProperties.

(* ====================================================================== *)
(** * Worked examples *)
(* ====================================================================== *)

(** C4 at work: the location provider does not answer, the chain returns
    [None] and the only request sent is the one to the location
    provider. *)
Lemma by_location_chain_witness :
  let w := {| net := network_down; sent := [] |} in
  fst (LocationService.get_location_from_ip w) = Returned None
  /\ fst (WeatherApp.call_task my_key task_by_location w) = Returned None
  /\ sent (snd (WeatherApp.call_task my_key task_by_location w)) = [ipinfo_request]
  /\ weather_provider_calls (sent (snd (WeatherApp.call_task my_key task_by_location w))) = [].
Proof.
  cbn zeta. split; [reflexivity|].
  exact (proj2 (by_location_chain my_key {| net := network_down; sent := [] |}) eq_refl).
Defined.

(** C7 at work: a space, an ideographic space, an em space, a no-break
    space and a tab typed into the entry of a new window. *)
Lemma search_blank_changes_nothing_witness :
  let self := WeatherApp.step my_key sample_str sample_format_0f
                (WeatherApp.user_types [32; 12288; 8195; 160; 9]%N) WeatherApp.__init__ in
  all_whitespace (WeatherApp.search_entry self) = true
  /\ WeatherApp._search_city self = (Returned tt, self)
  /\ WeatherApp.step my_key sample_str sample_format_0f WeatherApp.click_search_btn self = self
  /\ WeatherApp.step my_key sample_str sample_format_0f WeatherApp.press_return self = self.
Proof.
  cbn zeta. split; [reflexivity|].
  exact (search_blank_changes_nothing my_key sample_str sample_format_0f
           (WeatherApp.step my_key sample_str sample_format_0f
              (WeatherApp.user_types [32; 12288; 8195; 160; 9]%N) WeatherApp.__init__)
           eq_refl).
Defined.



(** C2 refuted.  The last fetch was a search for Paris and it failed; the
    view is [Failed].  Searching again would start the search chain on
    Paris; the retry button starts the by-location chain instead. *)
Lemma retry_after_failed_search :
  shows sample_str sample_format_0f after_failed_search (Failed fetch_failed_message)
  /\ WeatherApp.search_entry after_failed_search = ascii_text "Paris"
  /\ AsyncRunner.threads (WeatherApp.root after_failed_search) = []
  /\ AsyncRunner.threads
       (WeatherApp.root
          (WeatherApp.step my_key sample_str sample_format_0f WeatherApp.click_search_btn
             after_failed_search))
     = [(task_search (ascii_text "Paris"), self_handle_weather_result)]
  /\ AsyncRunner.threads
       (WeatherApp.root
          (WeatherApp.step my_key sample_str sample_format_0f WeatherApp.click_retry_btn
             after_failed_search))
     = [(task_by_location, self_handle_weather_result)]
  /\ AsyncRunner.threads
       (WeatherApp.root
          (WeatherApp.step my_key sample_str sample_format_0f WeatherApp.click_retry_btn
             after_failed_search))
     <> [(task_search (ascii_text "Paris"), self_handle_weather_result)].
Proof.
  split; [split; reflexivity|].
  repeat (split; [reflexivity|]).
  vm_compute. discriminate.
Qed.

(** C1 and C10 together: under a configured key the weather provider
    answers a search with an empty object.  The task raises, its thread
    ends without a callback, and the window stays on the spinner with
    nothing left that could change it. *)
Example missing_field_leaves_loading :
  let stuck := WeatherApp.run my_key sample_str sample_format_0f
                 [WeatherApp.thread_ends 0 network_down; WeatherApp.mainloop_after;
                  WeatherApp.user_types (ascii_text "Paris"); WeatherApp.click_search_btn;
                  WeatherApp.thread_ends 0 network_empty_object]
                 WeatherApp.__init__ in
  task_outcome my_key (task_search (ascii_text "Paris")) network_empty_object = Raised (KeyError "location")
  /\ shows sample_str sample_format_0f stuck Loading
  /\ WeatherApp.root stuck = {| AsyncRunner.threads := []; AsyncRunner.after_queue := [] |}
  /\ WeatherApp.step my_key sample_str sample_format_0f WeatherApp.mainloop_after stuck = stuck.
Proof.
  lazy zeta. repeat match goal with |- _ /\ _ => split end; vm_compute; reflexivity.
Qed.

(* ====================================================================== *)
(** * More on the services *)
(* ====================================================================== *)

Lemma raise_for_status_error (response : Response) :
  raise_for_status response
  = if status_is_error response then Raised (Requests HTTPError) else Returned tt.
Proof. reflexivity. Qed.

Lemma dict_get_object (entries : gmap string pyval) (key : string) (d : pyval) :
  dict_get (JDict entries) key d = Returned (default d (entries !! key)).
Proof. simpl. destruct (entries !! key); reflexivity. Qed.

(** On a good status and a body that is an object, the location is made
    of the members and the defaults, and one request was sent. *)
Lemma get_location_on_object (w : World) (response : Response)
    (entries : gmap string pyval) :
  net w ipinfo_request = Answer response ->
  status_is_error response = false ->
  body response = Some (JDict entries) ->
  LocationService.get_location_from_ip w
  = (Returned (Some (location_of entries)),
     {| net := net w; sent := sent w ++ [ipinfo_request] |}).
Proof.
  intros Hnet Hstatus Hbody. unfold LocationService.get_location_from_ip.
  unfold try_except_RequestException, bind, requests_get, lift, ret, json.
  fold ipinfo_request. rewrite Hnet, raise_for_status_error, Hstatus, Hbody.
  rewrite !dict_get_object. reflexivity.
Qed.

(** X1.  When the location provider answers with a good status and a body
    that is an object, [get_location_from_ip] returns a location whose
    fields are the members "city", "region", "country" and "loc" of the
    object, a missing member being replaced by "Unknown" for the city and
    by the empty string for the others. *)
Theorem location_missing_members_get_defaults (w : World) (response : Response)
    (entries : gmap string pyval) :
  net w ipinfo_request = Answer response ->
  status_is_error response = false ->
  body response = Some (JDict entries) ->
  fst (LocationService.get_location_from_ip w)
  = Returned (Some {| LocationData.city := default (JStr "Unknown") (entries !! "city");
                      LocationData.region := default (JStr "") (entries !! "region");
                      LocationData.country := default (JStr "") (entries !! "country");
                      LocationData.coordinates := default (JStr "") (entries !! "loc") |}).
Proof.
  intros Hnet Hstatus Hbody.
  rewrite (get_location_on_object w response entries Hnet Hstatus Hbody). reflexivity.
Qed.


(** X3.  A body that decodes to something that is not an object (a list,
    a string, a number, [null]) makes [get_location_from_ip] raise
    [AttributeError] from the first [.get]: the handler for
    [RequestException] lets it through. *)
Theorem location_non_object_raises (w : World) (data : pyval) :
  decodes_to (net w ipinfo_request) data ->
  is_object data = false ->
  fst (LocationService.get_location_from_ip w) = Raised AttributeError.
Proof.
  unfold decodes_to. destruct (net w ipinfo_request) as [e|response] eqn:Hnet; [tauto|].
  intros [Hstatus Hbody] Hobj. unfold LocationService.get_location_from_ip.
  unfold try_except_RequestException, bind, requests_get, lift, ret, json.
  fold ipinfo_request. rewrite Hnet, raise_for_status_error, Hstatus, Hbody.
  destruct data; try discriminate; reflexivity.
Qed.



Lemma status_is_error_range (response : Response) :
  status_is_error response = true -> 400 <= status_code response < 600.
Proof.
  unfold status_is_error. intros H. apply andb_true_iff in H as [H1 H2].
  apply Z.leb_le in H1. apply Z.ltb_lt in H2. lia.
Qed.


(** X5.  Under a configured key [get_weather] returns a reading exactly
    when the provider answered with a good status and a body in which
    every member the reading is made of is present; the reading is then
    the one made of those members. *)
Theorem weather_reading_iff_all_members (API_KEY : string) (query : pyval) (w : World)
    (reading : WeatherData) :
  String.eqb API_KEY YOUR_WEATHERAPI_KEY = false ->
  fst (WeatherService.get_weather API_KEY query w) = Returned (Some reading)
  <-> exists data, decodes_to (net w (weather_request API_KEY query)) data
                   /\ provider_reading data = Some reading.
Proof.
  intros Hkey. split.
  - intros Hget.
    destruct (get_weather_reading API_KEY query w reading Hkey Hget)
      as (response & data & Hnet & Hbody & Hreading).
    exists data. split; [|exact Hreading].
    unfold decodes_to. rewrite Hnet. split; [|exact Hbody].
    destruct (status_is_error response) eqn:Hstatus; [|reflexivity].
    exfalso.
    pose proof (get_weather_error_status API_KEY query w response Hkey Hnet
                  (status_is_error_range response Hstatus)) as Hnone.
    congruence.
  - intros (data & Hdec & Hreading). unfold decodes_to in Hdec.
    destruct (net w (weather_request API_KEY query)) as [e|response] eqn:Hnet; [tauto|].
    destruct Hdec as [Hstatus Hbody].
    apply (get_weather_returns_reading API_KEY query w response data reading Hkey Hnet);
      [|exact Hbody|exact Hreading].
    rewrite raise_for_status_error, Hstatus. reflexivity.
Qed.


(** X7.  Under a configured key [get_weather] sends one request and no
    more, whatever becomes of it: to the weather endpoint, with the key,
    the query exactly as it was passed, air quality off and a timeout of
    10; it leaves the network as it found it. *)
Theorem weather_sends_one_request (API_KEY : string) (query : pyval) (w : World) :
  String.eqb API_KEY YOUR_WEATHERAPI_KEY = false ->
  snd (WeatherService.get_weather API_KEY query w)
  = {| net := net w;
       sent := sent w ++ [ {| url := WEATHER_API_URL;
                              params := [("key", JStr API_KEY); ("q", query);
                                         ("aqi", JStr "no")];
                              timeout := 10 |} ] |}.
Proof.
  intros Hkey. unfold WeatherService.get_weather. rewrite Hkey.
  unfold try_except_RequestException, bind, requests_get, lift, ret.
  destruct (net w _) as [e|response]; [reflexivity|].
  destruct (raise_for_status response) as [[]|[]]; try reflexivity.
  destruct (json response) as [data|[]]; try reflexivity.
  repeat match goal with
         | |- context [subscript ?o ?k] => destruct (subscript o k) as [?|[]]; try reflexivity
         end.
Qed.

(* ====================================================================== *)
(** * More on the chains *)
(* ====================================================================== *)

(** X8.  With the key left at the placeholder neither chain ever sends a
    request to the weather provider, whatever the network does: the
    requests to it are those sent before the chain began. *)
Theorem placeholder_key_never_calls_weather_provider (f : task) (w : World) :
  weather_provider_calls (sent (snd (WeatherApp.call_task YOUR_WEATHERAPI_KEY f w)))
  = weather_provider_calls (sent w).
Proof.
  destruct f as [|c]; [|reflexivity].
  unfold WeatherApp.call_task, bind.
  pose proof (get_location_sends_one w) as Hlog.
  destruct (LocationService.get_location_from_ip w) as [[[l|]|e] w']; simpl in *;
    rewrite Hlog; unfold weather_provider_calls; rewrite filter_app; cbn; apply app_nil_r.
Qed.

(** X9.  Under a configured key, when the location provider answers with
    an object that has no "city" member, the by-location chain asks the
    weather provider about the city "Unknown": the chain sends the
    location request and then the weather request for "Unknown", and its
    result is the one of [get_weather] on "Unknown". *)
Theorem by_location_without_city_asks_unknown (API_KEY : string) (w : World)
    (response : Response) (entries : gmap string pyval) :
  String.eqb API_KEY YOUR_WEATHERAPI_KEY = false ->
  net w ipinfo_request = Answer response ->
  status_is_error response = false ->
  body response = Some (JDict entries) ->
  entries !! "city" = None ->
  WeatherApp.call_task API_KEY task_by_location w
  = WeatherService.get_weather API_KEY (JStr "Unknown")
      {| net := net w; sent := sent w ++ [ipinfo_request] |}
  /\ sent (snd (WeatherApp.call_task API_KEY task_by_location w))
     = (sent w ++ [ipinfo_request; weather_request API_KEY (JStr "Unknown")])%list.
Proof.
  intros Hkey Hnet Hstatus Hbody Hcity.
  assert (Heq : WeatherApp.call_task API_KEY task_by_location w
                = WeatherService.get_weather API_KEY (JStr "Unknown")
                    {| net := net w; sent := sent w ++ [ipinfo_request] |}).
  { unfold WeatherApp.call_task, bind.
    rewrite (get_location_on_object w response entries Hnet Hstatus Hbody).
    unfold location_of. rewrite Hcity. reflexivity. }
  split; [exact Heq|].
  rewrite Heq, (get_weather_sends_one API_KEY (JStr "Unknown") _ Hkey). simpl.
  rewrite <- app_assoc. reflexivity.
Qed.

(* ====================================================================== *)
(** * More on [strip] and the search *)
(* ====================================================================== *)

Lemma lstrip_first (s : list N) : first_is_space (lstrip s) = false.
Proof.
  induction s as [|c rest IH]; simpl; [reflexivity|].
  destruct (isspace c) eqn:Hc; [exact IH | simpl; exact Hc].
Qed.

Lemma rstrip_last (s : list N) : last_is_space (rstrip s) = false.
Proof.
  induction s as [|c rest IH]; simpl; [reflexivity|].
  destruct (rstrip rest) as [|k kept] eqn:Hr.
  - destruct (isspace c) eqn:Hc; simpl; [reflexivity | exact Hc].
  - exact IH.
Qed.

Lemma rstrip_first (s : list N) :
  first_is_space s = false -> first_is_space (rstrip s) = false.
Proof.
  destruct s as [|c rest]; simpl; [reflexivity|].
  intros Hc. destruct (rstrip rest); [rewrite Hc|]; simpl; exact Hc.
Qed.

Lemma lstrip_fixed (s : list N) : first_is_space s = false -> lstrip s = s.
Proof. destruct s as [|c rest]; simpl; [reflexivity|]. intros ->. reflexivity. Qed.

Lemma rstrip_fixed (s : list N) : last_is_space s = false -> rstrip s = s.
Proof.
  induction s as [|c rest IH]; [reflexivity|].
  destruct rest as [|c' rest'].
  - simpl. intros ->. reflexivity.
  - intros H. change (last_is_space (c' :: rest') = false) in H.
    change (rstrip (c :: c' :: rest'))
      with (match rstrip (c' :: rest') with
            | [] => if isspace c then [] else [c]
            | kept => c :: kept
            end).
    rewrite (IH H). reflexivity.
Qed.

(** X10.  What [strip] returns neither begins nor ends with whitespace;
    a text that neither begins nor ends with whitespace is returned as it
    is, so stripping twice is stripping once. *)
Theorem strip_removes_outer_whitespace (s : list N) :
  first_is_space (strip s) = false
  /\ last_is_space (strip s) = false
  /\ (first_is_space s = false -> last_is_space s = false -> strip s = s)
  /\ strip (strip s) = strip s.
Proof.
  assert (H1 : first_is_space (strip s) = false)
    by (apply rstrip_first, lstrip_first).
  assert (H2 : last_is_space (strip s) = false) by apply rstrip_last.
  assert (H3 : forall t, first_is_space t = false -> last_is_space t = false -> strip t = t).
  { intros t Hf Hl. unfold strip. rewrite (lstrip_fixed t Hf). apply rstrip_fixed, Hl. }
  repeat split; auto.
Qed.

(* ====================================================================== *)
(** * More on the card *)
(* ====================================================================== *)

Section MoreCardProperties.

Variable py_str : pyval -> string.
Variable format_0f : pyval -> outcome string.

(** X11.  In Celsius [update_weather] never looks at the Fahrenheit
    temperature, the Fahrenheit feels-like temperature or the wind in
    mph: replacing them changes neither the outcome nor the card.  In
    Fahrenheit it never looks at the three metric fields. *)
Theorem update_weather_reads_one_unit (weather : WeatherData) (t f w : pyval)
    (card : WeatherCard.t) :
  WeatherCard.update_weather py_str format_0f (with_imperial weather t f w) true card
  = WeatherCard.update_weather py_str format_0f weather true card
  /\ WeatherCard.update_weather py_str format_0f (with_metric weather t f w) false card
     = WeatherCard.update_weather py_str format_0f weather false card.
Proof. split; reflexivity. Qed.

(** The write stops where the temperature cannot be formatted. *)
Lemma update_weather_partial (weather : WeatherData) (celsius : bool)
    (card : WeatherCard.t) (e : exn) :
  format_0f (shown_temp weather celsius) = Raised e ->
  WeatherCard.update_weather py_str format_0f weather celsius card
  = (Raised e,
     {| WeatherCard.location_label := city weather;
        WeatherCard.region_label :=
          py_str (region weather) ++ ", " ++ py_str (country weather);
        WeatherCard.temp_label := WeatherCard.temp_label card;
        WeatherCard.unit_label := WeatherCard.unit_label card;
        WeatherCard.condition_label := WeatherCard.condition_label card;
        WeatherCard.feels_like_value := WeatherCard.feels_like_value card;
        WeatherCard.humidity_value := WeatherCard.humidity_value card;
        WeatherCard.wind_value := WeatherCard.wind_value card;
        WeatherCard.uv_value := WeatherCard.uv_value card;
        WeatherCard.updated_label := WeatherCard.updated_label card |}).
Proof.
  intros He. unfold WeatherCard.update_weather, bind, lift.
  unfold WeatherCard.configure_location_label, WeatherCard.configure_region_label, modify.
  destruct celsius; cbn [shown_temp] in He; cbv beta iota; rewrite He; reflexivity.
Qed.

(** The card after a write that ran to its end. *)
Lemma update_weather_written (weather : WeatherData) (celsius : bool)
    (card : WeatherCard.t) (t f w : string) :
  format_0f (shown_temp weather celsius) = Returned t ->
  format_0f (shown_feels_like weather celsius) = Returned f ->
  format_0f (shown_wind weather celsius) = Returned w ->
  WeatherCard.update_weather py_str format_0f weather celsius card
  = (Returned tt, written_card py_str weather celsius t f w).
Proof.
  intros Ht Hf Hw. unfold WeatherCard.update_weather.
  destruct celsius; cbn [shown_temp shown_feels_like shown_wind] in Ht, Hf, Hw;
    rewrite Ht, Hf, Hw; reflexivity.
Qed.

(** X12.  When the temperature of the chosen unit cannot be formatted,
    [update_weather] raises what the formatting raised after it has
    already replaced the location and the region: those two labels show
    the new reading, the eight others still show what they showed. *)
Theorem update_weather_stops_at_temperature (weather : WeatherData) (celsius : bool)
    (card : WeatherCard.t) (e : exn) :
  format_0f (if celsius then temp_c weather else temp_f weather) = Raised e ->
  WeatherCard.update_weather py_str format_0f weather celsius card
  = (Raised e,
     {| WeatherCard.location_label := city weather;
        WeatherCard.region_label :=
          py_str (region weather) ++ ", " ++ py_str (country weather);
        WeatherCard.temp_label := WeatherCard.temp_label card;
        WeatherCard.unit_label := WeatherCard.unit_label card;
        WeatherCard.condition_label := WeatherCard.condition_label card;
        WeatherCard.feels_like_value := WeatherCard.feels_like_value card;
        WeatherCard.humidity_value := WeatherCard.humidity_value card;
        WeatherCard.wind_value := WeatherCard.wind_value card;
        WeatherCard.uv_value := WeatherCard.uv_value card;
        WeatherCard.updated_label := WeatherCard.updated_label card |}).
Proof. exact (update_weather_partial weather celsius card e). Qed.

(** X13.  [update_weather] returns exactly when the three numbers of the
    chosen unit can be formatted, and then the card it leaves is the same
    whatever the card showed before. *)
Theorem update_weather_returns_iff_renders (weather : WeatherData) (celsius : bool)
    (card0 : WeatherCard.t) :
  ((exists card, WeatherCard.update_weather py_str format_0f weather celsius card0
                 = (Returned tt, card))
   <-> renders format_0f weather celsius)
  /\ (forall card card1,
        WeatherCard.update_weather py_str format_0f weather celsius card0 = (Returned tt, card) ->
        WeatherCard.update_weather py_str format_0f weather celsius card1 = (Returned tt, card)).
Proof.
  split; [split|].
  - intros [card Hcard].
    apply (card_displays_renders py_str format_0f card).
    exact (update_weather_displays py_str format_0f _ _ _ _ Hcard).
  - apply update_weather_renders.
  - intros card card1 Hcard. exact (update_weather_returned py_str format_0f _ _ _ _ Hcard card1).
Qed.

End MoreCardProperties.

(* ====================================================================== *)
(** * What every execution keeps *)
(* ====================================================================== *)

Section Executions.

Variable API_KEY : string.
Variable py_str : pyval -> string.
Variable format_0f : pyval -> outcome string.

Lemma search_city_blank (self : WeatherApp.t) :
  all_whitespace (WeatherApp.search_entry self) = true ->
  WeatherApp._search_city self = (Returned tt, self).
Proof.
  intros Hb. unfold WeatherApp._search_city, bind, get.
  rewrite (strip_all_whitespace _ Hb). reflexivity.
Qed.

(** A property kept by the six things an event can do is kept by every
    event. *)
Lemma step_keeps (P : WeatherApp.t -> Prop) :
  (forall text self, P self -> P (snd (WeatherApp.set_search_entry text self))) ->
  (forall self, P self -> P (snd (WeatherApp._toggle_unit py_str format_0f self))) ->
  (forall self, P self -> P (snd (WeatherApp._search_city self))) ->
  (forall self, P self -> P (snd (WeatherApp._fetch_weather_by_location self))) ->
  (forall r self, P self -> P (snd (WeatherApp.set_root r self))) ->
  (forall result self, P self ->
     P (snd (WeatherApp._handle_weather_result py_str format_0f result self))) ->
  forall e self, P self -> P (WeatherApp.step API_KEY py_str format_0f e self).
Proof.
  intros Htype Htoggle Hsearch Hfetch Hroot Hhandle e self HP.
  destruct e as [text| | | | | |i network|]; cbn [WeatherApp.step WeatherApp.call_command];
    unfold WeatherApp.tk_call; auto.
  - destruct (ErrorDisplay.retry_btn (WeatherApp.error_display self));
      cbn [WeatherApp.call_command]; auto.
  - destruct (AsyncRunner.next_after (WeatherApp.root self)) as [[[cb result] root']|];
      [|exact HP].
    destruct cb.
    change (P (snd (WeatherApp._handle_weather_result py_str format_0f result
                      (snd (WeatherApp.set_root root' self))))).
    apply Hhandle, Hroot, HP.
Qed.

Lemma run_keeps (P : WeatherApp.t -> Prop) :
  (forall e self, P self -> P (WeatherApp.step API_KEY py_str format_0f e self)) ->
  forall events self, P self -> P (WeatherApp.run API_KEY py_str format_0f events self).
Proof.
  intros Hstep events. unfold WeatherApp.run.
  induction events as [|e events IH]; intros self HP; cbn [fold_left]; [exact HP|].
  apply IH, Hstep, HP.
Qed.

Lemma step_consistent (e : WeatherApp.event) (self : WeatherApp.t) :
  consistent self -> consistent (WeatherApp.step API_KEY py_str format_0f e self).
Proof.
  revert e self. apply step_keeps; unfold consistent, packed, one_frame.
  - intros text self H. exact H.
  - intros self (H1 & H2 & H3 & H4). rewrite toggle_unit_effect. simpl.
    repeat split; auto. destruct (WeatherApp.use_celsius self); reflexivity.
  - intros self (H1 & H2 & H3 & H4).
    destruct (all_whitespace (WeatherApp.search_entry self)) eqn:Hb.
    + rewrite (search_city_blank self Hb). simpl. auto.
    + rewrite (search_effect self Hb). simpl. repeat split; auto; discriminate.
  - intros self (H1 & H2 & H3 & H4). rewrite fetch_by_location_effect. simpl.
    repeat split; auto; discriminate.
  - intros r self H. exact H.
  - intros [w|] self (H1 & H2 & H3 & H4).
    + rewrite handle_reading_effect.
      destruct (WeatherCard.update_weather py_str format_0f w (WeatherApp.use_celsius self)
                  (WeatherApp.weather_card self)) as [[[]|e] card]; simpl;
        repeat split; auto; discriminate.
    + rewrite handle_failure_effect. simpl. repeat split; auto; discriminate.
Qed.

Lemma run_consistent (events : list WeatherApp.event) :
  consistent (WeatherApp.run API_KEY py_str format_0f events WeatherApp.__init__).
Proof.
  apply run_keeps; [intros e self; apply step_consistent|].
  unfold consistent, packed, one_frame. simpl. repeat split; auto; discriminate.
Qed.

(** X14.  In every execution exactly one of the spinner, the weather card
    and the error display is packed. *)
Theorem exactly_one_frame_packed (events : list WeatherApp.event) :
  one_frame (packed (WeatherApp.run API_KEY py_str format_0f events WeatherApp.__init__)).
Proof. exact (proj1 (run_consistent events)). Qed.

(** X15.  In every execution the unit button names the unit a press would
    switch to: the Fahrenheit mark while the preference is Celsius, the
    Celsius mark while it is Fahrenheit. *)
Theorem unit_button_names_other_unit (events : list WeatherApp.event) :
  let self := WeatherApp.run API_KEY py_str format_0f events WeatherApp.__init__ in
  WeatherApp.unit_btn self
  = if WeatherApp.use_celsius self then degree ++ "F" else degree ++ "C".
Proof. exact (proj1 (proj2 (run_consistent events))). Qed.

(** X16.  In every execution, whenever the error display is the frame
    shown, its message is the fixed one of a failed fetch: the text the
    display is created with is never seen. *)
Theorem error_shown_has_fetch_message (events : list WeatherApp.event) :
  let self := WeatherApp.run API_KEY py_str format_0f events WeatherApp.__init__ in
  WeatherApp.error_display_packed self = true ->
  ErrorDisplay.message_label (WeatherApp.error_display self)
  = "Could not fetch weather data." ++ newline ++ "Check your connection or API key.".
Proof. exact (proj1 (proj2 (proj2 (run_consistent events)))). Qed.

(** X17.  In every execution, whenever the weather card is the frame
    shown, a reading is stored. *)
Theorem card_shown_has_reading (events : list WeatherApp.event) :
  let self := WeatherApp.run API_KEY py_str format_0f events WeatherApp.__init__ in
  WeatherApp.weather_card_packed self = true ->
  exists reading, WeatherApp.current_weather self = Some reading.
Proof.
  cbn zeta. intros Hp.
  pose proof (proj2 (proj2 (proj2 (run_consistent events))) Hp) as H.
  destruct (WeatherApp.current_weather _) as [w|]; [eauto | congruence].
Qed.

(** ** What an event can change *)

(** X18.  The stored reading changes only when the main loop runs a
    callback that carries a reading, and it becomes that reading: no other
    event stores, replaces or clears it. *)
Theorem stored_reading_changes_only_on_delivery (e : WeatherApp.event) (self : WeatherApp.t) :
  let self' := WeatherApp.step API_KEY py_str format_0f e self in
  WeatherApp.current_weather self' = WeatherApp.current_weather self
  \/ exists reading rest,
       e = WeatherApp.mainloop_after
       /\ AsyncRunner.after_queue (WeatherApp.root self)
          = (self_handle_weather_result, Some reading) :: rest
       /\ WeatherApp.current_weather self' = Some reading.
Proof.
  cbn zeta.
  assert (Hsearch : forall s, WeatherApp.current_weather (snd (WeatherApp._search_city s))
                              = WeatherApp.current_weather s).
  { intros s. destruct (all_whitespace (WeatherApp.search_entry s)) eqn:Hb.
    - rewrite (search_city_blank s Hb). reflexivity.
    - rewrite (search_effect s Hb). reflexivity. }
  destruct e as [text| | | | | |i network|]; cbn [WeatherApp.step WeatherApp.call_command];
    unfold WeatherApp.tk_call; try (left; reflexivity); try (left; apply Hsearch).
  - left. rewrite toggle_unit_effect. reflexivity.
  - left. destruct (ErrorDisplay.retry_btn (WeatherApp.error_display self));
      cbn [WeatherApp.call_command];
      [rewrite toggle_unit_effect; reflexivity | apply Hsearch | reflexivity].
  - unfold AsyncRunner.next_after.
    destruct (AsyncRunner.after_queue (WeatherApp.root self)) as [|[[] result] rest] eqn:Hq;
      [left; reflexivity|].
    change (snd ((WeatherApp.set_root
                    {| AsyncRunner.threads := AsyncRunner.threads (WeatherApp.root self);
                       AsyncRunner.after_queue := rest |};;
                  WeatherApp.call_callback py_str format_0f self_handle_weather_result result)
                   self))
      with (WeatherApp.tk_call (WeatherApp._handle_weather_result py_str format_0f result)
              (snd (WeatherApp.set_root
                      {| AsyncRunner.threads := AsyncRunner.threads (WeatherApp.root self);
                         AsyncRunner.after_queue := rest |} self))).
    destruct result as [w|].
    + right. exists w, rest. split; [reflexivity|]. split; [reflexivity|].
      apply handle_reading_stores.
    + left. unfold WeatherApp.tk_call. rewrite handle_failure_effect. reflexivity.
Qed.

(** X19.  In every execution the unit preference is flipped by a press of
    the unit button and left alone by every other event, the retry button
    included. *)
Theorem unit_changes_only_by_unit_button (events : list WeatherApp.event)
    (e : WeatherApp.event) :
  let self := WeatherApp.run API_KEY py_str format_0f events WeatherApp.__init__ in
  WeatherApp.use_celsius (WeatherApp.step API_KEY py_str format_0f e self)
  = if is_click_unit_btn e then negb (WeatherApp.use_celsius self)
    else WeatherApp.use_celsius self.
Proof.
  cbn zeta.
  set (self := WeatherApp.run API_KEY py_str format_0f events WeatherApp.__init__).
  assert (Hcmd : ErrorDisplay.retry_btn (WeatherApp.error_display self)
                 = self_fetch_weather_by_location)
    by (apply (run_keeps_retry API_KEY py_str format_0f events WeatherApp.__init__)).
  assert (Hsearch : forall s, WeatherApp.use_celsius (snd (WeatherApp._search_city s))
                              = WeatherApp.use_celsius s).
  { intros s. destruct (all_whitespace (WeatherApp.search_entry s)) eqn:Hb.
    - rewrite (search_city_blank s Hb). reflexivity.
    - rewrite (search_effect s Hb). reflexivity. }
  destruct e as [text| | | | | |i network|];
    cbn [WeatherApp.step WeatherApp.call_command is_click_unit_btn];
    unfold WeatherApp.tk_call; try reflexivity; try apply Hsearch.
  - rewrite toggle_unit_effect. reflexivity.
  - rewrite Hcmd. reflexivity.
  - destruct (AsyncRunner.next_after (WeatherApp.root self)) as [[[cb result] root']|];
      [|reflexivity].
    destruct cb.
    change (WeatherApp.use_celsius
              (snd (WeatherApp._handle_weather_result py_str format_0f result
                      (snd (WeatherApp.set_root root' self))))
            = WeatherApp.use_celsius self).
    rewrite (proj2 (handler_keeps_root_and_unit py_str format_0f result _)). reflexivity.
Qed.

(** X20.  The queue of callbacks is first in, first out and only the
    runner and the main loop touch it: a thread that ends puts its
    callback at the back when its task returned and nothing when it
    raised, the main loop takes the callback at the front, and no command
    of the user changes the queue. *)
Theorem queue_is_first_in_first_out (e : WeatherApp.event) (self : WeatherApp.t) :
  AsyncRunner.after_queue (WeatherApp.root (WeatherApp.step API_KEY py_str format_0f e self))
  = let queue := AsyncRunner.after_queue (WeatherApp.root self) in
    match e with
    | WeatherApp.thread_ends i network =>
        match AsyncRunner.threads (WeatherApp.root self) !! i with
        | Some (f, cb) =>
            match task_outcome API_KEY f network with
            | Returned result => (queue ++ [(cb, result)])%list
            | Raised _ => queue
            end
        | None => queue
        end
    | WeatherApp.mainloop_after => tail queue
    | _ => queue
    end.
Proof.
  cbn zeta.
  assert (Hsearch : forall s, WeatherApp.root (snd (WeatherApp._search_city s))
                              = WeatherApp.root s
                              \/ exists c, WeatherApp.root (snd (WeatherApp._search_city s))
                                           = AsyncRunner.run (task_search c)
                                               self_handle_weather_result (WeatherApp.root s)).
  { intros s. destruct (all_whitespace (WeatherApp.search_entry s)) eqn:Hb.
    - rewrite (search_city_blank s Hb). left. reflexivity.
    - rewrite (search_effect s Hb). right. eexists. reflexivity. }
  assert (Hsearchq : forall s,
            AsyncRunner.after_queue (WeatherApp.root (snd (WeatherApp._search_city s)))
            = AsyncRunner.after_queue (WeatherApp.root s)).
  { intros s. destruct (Hsearch s) as [->|[c ->]]; reflexivity. }
  destruct e as [text| | | | | |i network|]; cbn [WeatherApp.step WeatherApp.call_command];
    unfold WeatherApp.tk_call; try reflexivity; try apply Hsearchq.
  - rewrite toggle_unit_effect. reflexivity.
  - destruct (ErrorDisplay.retry_btn (WeatherApp.error_display self));
      cbn [WeatherApp.call_command];
      [rewrite toggle_unit_effect; reflexivity | apply Hsearchq | reflexivity].
  - unfold AsyncRunner.thread_ends, AsyncRunner.worker, task_outcome.
    destruct (AsyncRunner.threads (WeatherApp.root self) !! i) as [[f cb]|]; [|reflexivity].
    destruct (fst (WeatherApp.call_task API_KEY f {| net := network; sent := [] |}));
      reflexivity.
  - unfold AsyncRunner.next_after.
    destruct (AsyncRunner.after_queue (WeatherApp.root self)) as [|[[] result] rest] eqn:Hq;
      [rewrite Hq; reflexivity|].
    change (AsyncRunner.after_queue
              (WeatherApp.root
                 (snd (WeatherApp._handle_weather_result py_str format_0f result
                         (snd (WeatherApp.set_root
                                 {| AsyncRunner.threads :=
                                      AsyncRunner.threads (WeatherApp.root self);
                                    AsyncRunner.after_queue := rest |} self)))))
            = rest).
    rewrite (proj1 (handler_keeps_root_and_unit py_str format_0f result _)). reflexivity.
Qed.

End Executions.

(* ====================================================================== *)
(** * More on the methods of the window *)
(* ====================================================================== *)

Section MoreAppProperties.

Variable API_KEY : string.
Variable py_str : pyval -> string.
Variable format_0f : pyval -> outcome string.

Lemma renders_formats (weather : WeatherData) (celsius : bool) :
  renders format_0f weather celsius ->
  exists t f w,
    format_0f (shown_temp weather celsius) = Returned t
    /\ format_0f (shown_feels_like weather celsius) = Returned f
    /\ format_0f (shown_wind weather celsius) = Returned w.
Proof.
  unfold renders. destruct celsius; intros [[t Ht] [[f Hf] [w Hw]]]; exists t, f, w; auto.
Qed.

(** X21.  While a reading is shown, a press of the unit button shows the
    same reading in the other unit, provided its three numbers of that
    unit can be formatted; no thread is started and nothing is queued. *)
Theorem toggle_unit_shows_other_unit (self : WeatherApp.t) (reading : WeatherData)
    (celsius : bool) :
  shows py_str format_0f self (Showing reading celsius) ->
  renders format_0f reading (negb celsius) ->
  let self' := WeatherApp.step API_KEY py_str format_0f WeatherApp.click_unit_btn self in
  shows py_str format_0f self' (Showing reading (negb celsius))
  /\ WeatherApp.root self' = WeatherApp.root self.
Proof.
  intros (Hp & Hw & Hc & Hd) Hr. cbn zeta.
  cbn [WeatherApp.step WeatherApp.call_command]. unfold WeatherApp.tk_call.
  rewrite toggle_unit_effect, Hw, Hc.
  destruct (update_weather_renders py_str format_0f reading (negb celsius)
              (WeatherApp.weather_card self) Hr) as [card Hcard].
  rewrite Hcard. split; [|reflexivity].
  unfold shows, packed in *. cbn [WeatherApp.loading_spinner_packed
    WeatherApp.weather_card_packed WeatherApp.error_display_packed
    WeatherApp.current_weather WeatherApp.use_celsius WeatherApp.weather_card snd].
  repeat split; try assumption.
  exact (update_weather_displays py_str format_0f _ _ _ _ Hcard).
Qed.

(** X22.  While a reading is shown, a press of the unit button flips the
    preference even when the temperature of the other unit cannot be
    formatted; the card then still names the old unit, and its
    temperature is the old one. *)
Theorem toggle_unit_unformattable_leaves_old_unit (self : WeatherApp.t)
    (reading : WeatherData) (celsius : bool) (e : exn) :
  shows py_str format_0f self (Showing reading celsius) ->
  format_0f (if negb celsius then temp_c reading else temp_f reading) = Raised e ->
  let self' := WeatherApp.step API_KEY py_str format_0f WeatherApp.click_unit_btn self in
  WeatherApp.use_celsius self' = negb celsius
  /\ WeatherCard.unit_label (WeatherApp.weather_card self') = (if celsius then "C" else "F")
  /\ WeatherCard.temp_label (WeatherApp.weather_card self')
     = WeatherCard.temp_label (WeatherApp.weather_card self)
  /\ packed self' = packed self.
Proof.
  intros (Hp & Hw & Hc & Hd) He. cbn zeta.
  cbn [WeatherApp.step WeatherApp.call_command]. unfold WeatherApp.tk_call.
  rewrite toggle_unit_effect, Hw, Hc.
  rewrite (update_weather_partial py_str format_0f reading (negb celsius) _ e He).
  cbn [WeatherApp.use_celsius WeatherApp.weather_card snd WeatherCard.unit_label
       WeatherCard.temp_label].
  split; [reflexivity|]. split; [|split; reflexivity].
  destruct (renders_formats reading celsius
              (card_displays_renders py_str format_0f _ _ _ Hd)) as (t & f & w & Ht & Hf & Hw').
  unfold card_displays in Hd.
  rewrite (update_weather_written py_str format_0f reading celsius _ t f w Ht Hf Hw') in Hd.
  injection Hd as Hd. rewrite <- Hd. reflexivity.
Qed.

(** X23.  A reading whose temperature of the current unit cannot be
    formatted: the handler has stored it when the formatting raises, and
    the frames stay as they were, so the reading is kept but not shown. *)
Theorem handler_stores_before_it_raises (self : WeatherApp.t) (reading : WeatherData)
    (e : exn) :
  format_0f (if WeatherApp.use_celsius self then temp_c reading else temp_f reading)
  = Raised e ->
  let result := WeatherApp._handle_weather_result py_str format_0f (Some reading) self in
  fst result = Raised e
  /\ WeatherApp.current_weather (snd result) = Some reading
  /\ packed (snd result) = packed self
  /\ WeatherApp.root (snd result) = WeatherApp.root self.
Proof.
  intros He. cbn zeta. rewrite handle_reading_effect.
  rewrite (update_weather_partial py_str format_0f reading (WeatherApp.use_celsius self) _ e He).
  repeat split; reflexivity.
Qed.

(** ** Whole fetches *)

Lemma mainloop_run_cons (events : list WeatherApp.event) (e : WeatherApp.event)
    (self : WeatherApp.t) :
  WeatherApp.run API_KEY py_str format_0f (e :: events) self
  = WeatherApp.run API_KEY py_str format_0f events
      (WeatherApp.step API_KEY py_str format_0f e self).
Proof. reflexivity. Qed.

(** X24.  However many callbacks are queued, once the main loop has run
    them all the view is the one of the callback queued last, provided
    that, when it carries a reading, the three numbers of the reading for
    the current unit can be formatted. *)
Theorem last_queued_callback_decides_view (self : WeatherApp.t)
    (earlier : list (callback * option WeatherData)) (result : option WeatherData) :
  AsyncRunner.after_queue (WeatherApp.root self)
  = (earlier ++ [(self_handle_weather_result, result)])%list ->
  result_renders format_0f result (WeatherApp.use_celsius self) ->
  shows py_str format_0f
    (WeatherApp.run API_KEY py_str format_0f
       (replicate (S (length earlier)) WeatherApp.mainloop_after) self)
    (view_of_result result (WeatherApp.use_celsius self)).
Proof.
  revert self. induction earlier as [|[[] r] earlier IH]; intros self Hq Hr.
  - exact (mainloop_after_view API_KEY py_str format_0f self result [] Hq Hr).
  - cbn [length replicate]. rewrite mainloop_run_cons.
    destruct (mainloop_after_root API_KEY py_str format_0f self r _ Hq) as [Hroot Hunit].
    rewrite <- Hunit. apply IH.
    + rewrite Hroot. reflexivity.
    + rewrite Hunit. exact Hr.
Qed.

(** A thread just started on [f], nothing queued: when the thread has
    ended with a result and the main loop has run once, the view is the
    one of the result and the root is what it was before the start. *)
Lemma started_fetch_completes (self started : WeatherApp.t) (f : task)
    (network : Request -> http_result) (result : option WeatherData) :
  WeatherApp.root started
  = AsyncRunner.run f self_handle_weather_result (WeatherApp.root self) ->
  WeatherApp.use_celsius started = WeatherApp.use_celsius self ->
  AsyncRunner.after_queue (WeatherApp.root self) = [] ->
  task_outcome API_KEY f network = Returned result ->
  result_renders format_0f result (WeatherApp.use_celsius self) ->
  let final :=
    WeatherApp.run API_KEY py_str format_0f
      [WeatherApp.thread_ends (length (AsyncRunner.threads (WeatherApp.root self))) network;
       WeatherApp.mainloop_after] started in
  shows py_str format_0f final (view_of_result result (WeatherApp.use_celsius self))
  /\ WeatherApp.root final = WeatherApp.root self.
Proof.
  intros Hroot Hunit Hq Hf Hr. cbn zeta. rewrite !mainloop_run_cons.
  assert (Hi : AsyncRunner.threads (WeatherApp.root started)
               !! length (AsyncRunner.threads (WeatherApp.root self))
               = Some (f, self_handle_weather_result)).
  { rewrite Hroot. apply (list_lookup_middle _ [] _ _ eq_refl). }
  destruct (thread_ends_root API_KEY py_str format_0f started _ _ _ network result Hi Hf)
    as [R1 U1].
  rewrite Hroot in R1. cbn [AsyncRunner.run AsyncRunner.threads AsyncRunner.after_queue] in R1.
  rewrite (delete_middle _ []), app_nil_r, Hq in R1. cbn [app] in R1.
  set (s1 := WeatherApp.step API_KEY py_str format_0f
               (WeatherApp.thread_ends _ network) started) in *.
  assert (Hq1 : AsyncRunner.after_queue (WeatherApp.root s1)
                = (self_handle_weather_result, result) :: [])
    by (rewrite R1; reflexivity).
  assert (U : WeatherApp.use_celsius s1 = WeatherApp.use_celsius self) by congruence.
  split.
  - rewrite <- U. apply (mainloop_after_view API_KEY py_str format_0f s1 result [] Hq1).
    rewrite U. exact Hr.
  - destruct (mainloop_after_root API_KEY py_str format_0f s1 result [] Hq1) as [R2 _].
    cbn [WeatherApp.run fold_left]. rewrite R2, R1.
    destruct (WeatherApp.root self) as [ts q]. simpl in *. subst q. reflexivity.
Qed.

(** X25.  A press of the location button with nothing queued, its thread
    run to the end with a result, one turn of the main loop: provided
    that, when the result is a reading, its three numbers for the current
    unit can be formatted, the view is the one of the chain's result, the
    failure for [None] and the reading in the current unit otherwise, and
    no thread or callback is left over. *)
Theorem location_fetch_completes (self : WeatherApp.t)
    (network : Request -> http_result) (result : option WeatherData) :
  AsyncRunner.after_queue (WeatherApp.root self) = [] ->
  task_outcome API_KEY task_by_location network = Returned result ->
  result_renders format_0f result (WeatherApp.use_celsius self) ->
  let final :=
    WeatherApp.run API_KEY py_str format_0f
      [WeatherApp.click_location_btn;
       WeatherApp.thread_ends (length (AsyncRunner.threads (WeatherApp.root self))) network;
       WeatherApp.mainloop_after] self in
  shows py_str format_0f final (view_of_result result (WeatherApp.use_celsius self))
  /\ WeatherApp.root final = WeatherApp.root self.
Proof.
  intros Hq Hf Hr. cbn zeta. rewrite mainloop_run_cons.
  apply (started_fetch_completes self _ task_by_location network result); auto.
Qed.

(** X26.  The same for a search: with an entry that is not blank and
    nothing queued, a press of the search button, the thread run to the
    end with a result and one turn of the main loop give the view of the
    result of the search chain on the stripped entry, under the same
    proviso on the numbers of a reading. *)
Theorem search_fetch_completes (self : WeatherApp.t)
    (network : Request -> http_result) (result : option WeatherData) :
  all_whitespace (WeatherApp.search_entry self) = false ->
  AsyncRunner.after_queue (WeatherApp.root self) = [] ->
  task_outcome API_KEY (task_search (strip (WeatherApp.search_entry self))) network
  = Returned result ->
  result_renders format_0f result (WeatherApp.use_celsius self) ->
  let final :=
    WeatherApp.run API_KEY py_str format_0f
      [WeatherApp.click_search_btn;
       WeatherApp.thread_ends (length (AsyncRunner.threads (WeatherApp.root self))) network;
       WeatherApp.mainloop_after] self in
  shows py_str format_0f final (view_of_result result (WeatherApp.use_celsius self))
  /\ WeatherApp.root final = WeatherApp.root self.
Proof.
  intros Hnb Hq Hf Hr. cbn zeta. rewrite mainloop_run_cons.
  apply (started_fetch_completes self _ (task_search (strip (WeatherApp.search_entry self)))
           network result); auto;
    cbn [WeatherApp.step WeatherApp.call_command]; unfold WeatherApp.tk_call;
    rewrite (search_effect self Hnb); reflexivity.
Qed.

(** X27.  A fetch whose task raises strands the window on the spinner:
    after the press and the end of the thread the view is [Loading], the
    threads and the queue are what they were before the press, and with
    nothing queued the main loop has nothing to run. *)
Theorem raising_fetch_strands_loading (self : WeatherApp.t)
    (network : Request -> http_result) (e : exn) :
  AsyncRunner.after_queue (WeatherApp.root self) = [] ->
  task_outcome API_KEY task_by_location network = Raised e ->
  let final :=
    WeatherApp.run API_KEY py_str format_0f
      [WeatherApp.click_location_btn;
       WeatherApp.thread_ends (length (AsyncRunner.threads (WeatherApp.root self))) network]
      self in
  shows py_str format_0f final Loading
  /\ WeatherApp.root final = WeatherApp.root self
  /\ WeatherApp.step API_KEY py_str format_0f WeatherApp.mainloop_after final = final.
Proof.
  intros Hq Hf. cbn zeta. rewrite !mainloop_run_cons. cbn [WeatherApp.run fold_left].
  set (started := WeatherApp.step API_KEY py_str format_0f WeatherApp.click_location_btn self).
  assert (Hs : started = snd (WeatherApp._fetch_weather_by_location self)) by reflexivity.
  rewrite fetch_by_location_effect in Hs. cbn [snd] in Hs.
  assert (Hi : AsyncRunner.threads (WeatherApp.root started)
               !! length (AsyncRunner.threads (WeatherApp.root self))
               = Some (task_by_location, self_handle_weather_result)).
  { rewrite Hs. apply (list_lookup_middle _ [] _ _ eq_refl). }
  rewrite (thread_ends_effect API_KEY py_str format_0f started _ _ _ network Hi), Hf.
  rewrite Hs. cbn [WeatherApp.root AsyncRunner.run AsyncRunner.threads
                   AsyncRunner.after_queue WeatherApp.set_root modify snd].
  rewrite (delete_middle _ []), app_nil_r, Hq.
  split; [reflexivity|]. split.
  - destruct (WeatherApp.root self) as [ts q]. simpl in *. subst q. reflexivity.
  - reflexivity.
Qed.

End MoreAppProperties.

(* ====================================================================== *)
(** * Executions on well-typed readings *)
(* ====================================================================== *)

Section WellTyped.

Variable API_KEY : string.
Variable py_str : pyval -> string.
Variable format_0f : pyval -> outcome string.

Lemma renders_both_unit (reading : WeatherData) (celsius : bool) :
  renders_both format_0f reading -> renders format_0f reading celsius.
Proof. intros [Ht Hf]. destruct celsius; assumption. Qed.

Lemma search_city_in_sync (self : WeatherApp.t) :
  in_sync py_str format_0f self ->
  in_sync py_str format_0f (snd (WeatherApp._search_city self)).
Proof.
  intros H. destruct (all_whitespace (WeatherApp.search_entry self)) eqn:Hb.
  - rewrite (search_city_blank self Hb). exact H.
  - rewrite (search_effect self Hb). exact H.
Qed.

Lemma toggle_unit_in_sync (self : WeatherApp.t) :
  in_sync py_str format_0f self ->
  in_sync py_str format_0f (snd (WeatherApp._toggle_unit py_str format_0f self)).
Proof.
  intros [Hw Hq]. rewrite toggle_unit_effect. split; [|exact Hq].
  cbn [WeatherApp.current_weather WeatherApp.use_celsius WeatherApp.weather_card].
  intros reading Hr. destruct (Hw reading Hr) as [Hboth _]. split; [exact Hboth|].
  rewrite Hr.
  destruct (update_weather_renders py_str format_0f reading
              (negb (WeatherApp.use_celsius self)) (WeatherApp.weather_card self)
              (renders_both_unit reading _ Hboth)) as [card Hcard].
  rewrite Hcard. exact (update_weather_displays py_str format_0f _ _ _ _ Hcard).
Qed.

Lemma handler_in_sync (result : option WeatherData) (self : WeatherApp.t) :
  (forall reading, result = Some reading -> renders_both format_0f reading) ->
  in_sync py_str format_0f self ->
  in_sync py_str format_0f
    (snd (WeatherApp._handle_weather_result py_str format_0f result self)).
Proof.
  intros Hres [Hw Hq]. destruct result as [w|].
  - rewrite handle_reading_effect.
    pose proof (Hres w eq_refl) as Hboth.
    destruct (update_weather_renders py_str format_0f w (WeatherApp.use_celsius self)
                (WeatherApp.weather_card self) (renders_both_unit w _ Hboth)) as [card Hcard].
    rewrite Hcard. split; [|exact Hq].
    cbn [snd WeatherApp.current_weather WeatherApp.use_celsius WeatherApp.weather_card].
    intros reading [= <-]. split; [exact Hboth|].
    exact (update_weather_displays py_str format_0f _ _ _ _ Hcard).
  - rewrite handle_failure_effect. split; [exact Hw | exact Hq].
Qed.

Lemma step_in_sync (e : WeatherApp.event) (self : WeatherApp.t) :
  event_well_typed API_KEY format_0f e ->
  in_sync py_str format_0f self ->
  in_sync py_str format_0f (WeatherApp.step API_KEY py_str format_0f e self).
Proof.
  intros He H.
  destruct e as [text| | | | | |i network|]; cbn [WeatherApp.step WeatherApp.call_command];
    unfold WeatherApp.tk_call;
    try exact H; try apply search_city_in_sync, H; try apply toggle_unit_in_sync, H.
  - destruct (ErrorDisplay.retry_btn (WeatherApp.error_display self));
      cbn [WeatherApp.call_command];
      [apply toggle_unit_in_sync, H | apply search_city_in_sync, H | exact H].
  - destruct H as [Hw Hq]. split; [exact Hw|].
    cbn [snd WeatherApp.set_root modify WeatherApp.root].
    unfold AsyncRunner.thread_ends, AsyncRunner.worker.
    destruct (AsyncRunner.threads (WeatherApp.root self) !! i) as [[f cb]|]; [|exact Hq].
    destruct (fst (WeatherApp.call_task API_KEY f {| net := network; sent := [] |}))
      as [result|x] eqn:Hf; [|exact Hq].
    cbn [AsyncRunner.after AsyncRunner.after_queue].
    intros cb' reading Hin. apply elem_of_app in Hin as [Hin|Hin]; [exact (Hq _ _ Hin)|].
    apply list_elem_of_singleton in Hin. injection Hin as _ Hres. subst result.
    exact (He f reading Hf).
  - unfold AsyncRunner.next_after.
    destruct (AsyncRunner.after_queue (WeatherApp.root self)) as [|[[] result] rest] eqn:Hqueue;
      [exact H|].
    change (in_sync py_str format_0f
              (snd (WeatherApp._handle_weather_result py_str format_0f result
                      (snd (WeatherApp.set_root
                              {| AsyncRunner.threads :=
                                   AsyncRunner.threads (WeatherApp.root self);
                                 AsyncRunner.after_queue := rest |} self))))).
    destruct H as [Hw Hq]. apply handler_in_sync.
    + intros reading ->. apply (Hq self_handle_weather_result reading).
      rewrite Hqueue. apply list_elem_of_here.
    + split; [exact Hw|].
      cbn [snd WeatherApp.set_root modify WeatherApp.root AsyncRunner.after_queue].
      intros cb reading Hin. apply (Hq cb reading). rewrite Hqueue.
      apply list_elem_of_further, Hin.
Qed.

Lemma run_consistent_in_sync (events : list WeatherApp.event) (self : WeatherApp.t) :
  Forall (event_well_typed API_KEY format_0f) events ->
  consistent self -> in_sync py_str format_0f self ->
  consistent (WeatherApp.run API_KEY py_str format_0f events self)
  /\ in_sync py_str format_0f (WeatherApp.run API_KEY py_str format_0f events self).
Proof.
  unfold WeatherApp.run. revert self.
  induction events as [|e events IH]; intros self Hev Hc Hs; cbn [fold_left]; [auto|].
  inversion Hev as [|? ? He Hrest]; subst.
  apply IH; [exact Hrest | apply step_consistent, Hc | apply step_in_sync; assumption].
Qed.

(** X28.  In an execution in which every reading brought back from the
    network can be formatted in both units, the window is at every moment
    in one of the three view states: [Loading], [Failed] with the fixed
    message, or [Showing] the stored reading in the current unit, with
    the card in step with both. *)
Theorem always_in_a_view_state (events : list WeatherApp.event) :
  Forall (event_well_typed API_KEY format_0f) events ->
  let self := WeatherApp.run API_KEY py_str format_0f events WeatherApp.__init__ in
  shows py_str format_0f self Loading
  \/ shows py_str format_0f self (Failed fetch_failed_message)
  \/ exists reading,
       WeatherApp.current_weather self = Some reading
       /\ shows py_str format_0f self (Showing reading (WeatherApp.use_celsius self)).
Proof.
  intros Hev. cbn zeta.
  assert (Hinit : consistent WeatherApp.__init__ /\ in_sync py_str format_0f WeatherApp.__init__).
  { split.
    - exact (run_consistent API_KEY py_str format_0f []).
    - split; [intros reading H; discriminate H|].
      intros cb reading Hin. cbn in Hin. inversion Hin. }
  destruct (run_consistent_in_sync events WeatherApp.__init__ Hev (proj1 Hinit) (proj2 Hinit))
    as [(Hframe & _ & Hmsg & Hcard) [Hw _]].
  set (self := WeatherApp.run API_KEY py_str format_0f events WeatherApp.__init__) in *.
  unfold one_frame, packed in Hframe.
  destruct Hframe as [Hf|[Hf|Hf]]; injection Hf as Hl Hc He.
  - left. unfold shows, packed. rewrite Hl, Hc, He. reflexivity.
  - right. right.
    destruct (WeatherApp.current_weather self) as [reading|] eqn:Hr;
      [|exfalso; exact (Hcard Hc eq_refl)].
    exists reading. split; [reflexivity|].
    unfold shows, packed. rewrite Hl, Hc, He.
    repeat split; try assumption. exact (proj2 (Hw reading eq_refl)).
  - right. left. unfold shows, packed. rewrite Hl, Hc, He.
    split; [reflexivity | exact (Hmsg He)].
Qed.

End WellTyped.

(* ====================================================================== *)
(** * The theme button *)
(* ====================================================================== *)

Lemma toggle_theme_effect (s : Theme.t) :
  Theme._toggle_theme s
  = (Returned tt,
     if String.eqb (Theme.appearance_mode s) "Dark"
     then {| Theme.appearance_mode := "Light"; Theme.theme_btn := Theme.moon |}
     else {| Theme.appearance_mode := "Dark"; Theme.theme_btn := Theme.sun |}).
Proof.
  unfold Theme._toggle_theme, bind, Theme.get_appearance_mode. cbn [fst snd].
  destruct (String.eqb (Theme.appearance_mode s) "Dark"); reflexivity.
Qed.

(** X29.  A press of the theme button turns the dark mode into the light
    one and shows the moon, and turns any other mode into the dark one
    and shows the sun; it always returns.  From the state the window
    starts in, the mode after [n] presses is dark for an even [n] and
    light for an odd one, with the sun in the dark mode and the moon in
    the light one. *)
Theorem toggle_theme_alternates (s : Theme.t) (n : nat) :
  Theme._toggle_theme s
  = (Returned tt,
     if String.eqb (Theme.appearance_mode s) "Dark"
     then {| Theme.appearance_mode := "Light"; Theme.theme_btn := Theme.moon |}
     else {| Theme.appearance_mode := "Dark"; Theme.theme_btn := Theme.sun |})
  /\ Theme.presses n Theme.initial
     = if Nat.even n then Theme.initial
       else {| Theme.appearance_mode := "Light"; Theme.theme_btn := Theme.moon |}.
Proof.
  split; [apply toggle_theme_effect|].
  assert (H : forall k,
            Theme.presses (2 * k) Theme.initial = Theme.initial
            /\ Theme.presses (S (2 * k)) Theme.initial
               = {| Theme.appearance_mode := "Light"; Theme.theme_btn := Theme.moon |}).
  { assert (Hpp : forall a b s0, Theme.presses (a + b) s0 = Theme.presses b (Theme.presses a s0)).
    { induction a as [|a IHa]; intros b s0; [reflexivity|]. cbn [Nat.add Theme.presses].
      apply IHa. }
    induction k as [|k [IH1 IH2]]; [split; reflexivity|].
    assert (E : Theme.presses (2 * S k) Theme.initial = Theme.initial).
    { replace (2 * S k)%nat with (S (2 * k) + 1)%nat by lia.
      rewrite Hpp, IH2. reflexivity. }
    split; [exact E|].
    replace (S (2 * S k)) with (2 * S k + 1)%nat by lia.
    rewrite Hpp, E. reflexivity. }
  destruct (Nat.even n) eqn:He.
  - apply Nat.even_spec in He as [k ->]. apply H.
  - assert (Ho : Nat.odd n = true) by (rewrite <- Nat.negb_even, He; reflexivity).
    apply Nat.odd_spec in Ho as [k ->].
    replace (2 * k + 1)%nat with (S (2 * k)) by lia. apply H.
Qed.

(* ====================================================================== *)
(** * More worked examples *)
(* ====================================================================== *)

(** With the placeholder key every reading a chain brings back is the
    sample, which the sample formatter formats. *)
Lemma placeholder_readings_well_typed (network : Request -> http_result) :
  network_well_typed YOUR_WEATHERAPI_KEY sample_format_0f network.
Proof.
  assert (Hdemo : renders_both sample_format_0f WeatherService.demo_weather)
    by (split; repeat split; eexists; reflexivity).
  intros f reading. unfold task_outcome. destruct f as [|c].
  - unfold WeatherApp.call_task, bind.
    destruct (LocationService.get_location_from_ip _) as [[[l|]|e] w']; cbn;
      try discriminate.
    intros [= <-]. exact Hdemo.
  - cbn. intros [= <-]. exact Hdemo.
Qed.

(** X1 at work: an answer with a region and nothing else. *)
Lemma location_missing_members_get_defaults_witness :
  fst (LocationService.get_location_from_ip {| net := network_no_city; sent := [] |})
  = Returned (Some {| LocationData.city := JStr "Unknown";
                      LocationData.region := JStr "Bavaria";
                      LocationData.country := JStr "";
                      LocationData.coordinates := JStr "" |}).
Proof.
  exact (location_missing_members_get_defaults
           {| net := network_no_city; sent := [] |}
           {| status_code := 200; body := Some location_without_city |}
           (<["region" := JStr "Bavaria"]> ∅) eq_refl eq_refl eq_refl).
Defined.

(** X3 at work: the location provider answers with an empty list. *)
Lemma location_non_object_raises_witness :
  fst (LocationService.get_location_from_ip {| net := network_list_body; sent := [] |})
  = Raised AttributeError.
Proof.
  exact (location_non_object_raises {| net := network_list_body; sent := [] |} (JList [])
           (conj eq_refl eq_refl) eq_refl).
Defined.


(** X5 at work: the provider answers with every member. *)
Lemma weather_reading_iff_all_members_witness :
  fst (WeatherService.get_weather my_key (JStr "Paris") {| net := network_up; sent := [] |})
  = Returned (Some paris_reading).
Proof.
  apply (weather_reading_iff_all_members my_key (JStr "Paris")
           {| net := network_up; sent := [] |} paris_reading eq_refl).
  exists paris_weather. split; [split; reflexivity | reflexivity].
Defined.


(** X7 at work: the one request of a search for Paris on a dead network. *)
Lemma weather_sends_one_request_witness :
  sent (snd (WeatherService.get_weather my_key (JStr "Paris")
               {| net := network_down; sent := [] |}))
  = [ {| url := WEATHER_API_URL;
         params := [("key", JStr my_key); ("q", JStr "Paris"); ("aqi", JStr "no")];
         timeout := 10 |} ].
Proof.
  rewrite (weather_sends_one_request my_key (JStr "Paris")
             {| net := network_down; sent := [] |} eq_refl).
  reflexivity.
Defined.

(** X9 at work: the location has no city and the weather provider is
    asked about "Unknown". *)
Lemma by_location_without_city_asks_unknown_witness :
  sent (snd (WeatherApp.call_task my_key task_by_location
               {| net := network_no_city; sent := [] |}))
  = [ipinfo_request; weather_request my_key (JStr "Unknown")].
Proof.
  exact (proj2 (by_location_without_city_asks_unknown my_key
                  {| net := network_no_city; sent := [] |}
                  {| status_code := 200; body := Some location_without_city |}
                  (<["region" := JStr "Bavaria"]> ∅)
                  eq_refl eq_refl eq_refl eq_refl eq_refl)).
Defined.

(** X12 at work: a new card asked to show, in Fahrenheit, a reading whose
    Fahrenheit temperature is a text. *)
Lemma update_weather_stops_at_temperature_witness :
  fst (WeatherCard.update_weather sample_str sample_format_0f paris_without_fahrenheit false
         WeatherCard._create_widgets) = Raised ValueError
  /\ WeatherCard.location_label
       (snd (WeatherCard.update_weather sample_str sample_format_0f paris_without_fahrenheit
               false WeatherCard._create_widgets)) = JStr "Paris"
  /\ WeatherCard.temp_label
       (snd (WeatherCard.update_weather sample_str sample_format_0f paris_without_fahrenheit
               false WeatherCard._create_widgets)) = "--" ++ degree.
Proof.
  rewrite (update_weather_stops_at_temperature sample_str sample_format_0f
             paris_without_fahrenheit false WeatherCard._create_widgets ValueError eq_refl).
  split; [reflexivity|]. split; reflexivity.
Defined.

(** X16 at work: the fetch of the start fails. *)
Lemma error_shown_has_fetch_message_witness :
  ErrorDisplay.message_label
    (WeatherApp.error_display
       (WeatherApp.run my_key sample_str sample_format_0f
          [WeatherApp.thread_ends 0 network_down; WeatherApp.mainloop_after]
          WeatherApp.__init__))
  = "Could not fetch weather data." ++ newline ++ "Check your connection or API key.".
Proof.
  apply (error_shown_has_fetch_message my_key sample_str sample_format_0f
           [WeatherApp.thread_ends 0 network_down; WeatherApp.mainloop_after]).
  vm_compute. reflexivity.
Defined.

(** X17 at work: the fetch of the start succeeds. *)
Lemma card_shown_has_reading_witness :
  exists reading, WeatherApp.current_weather showing_paris = Some reading.
Proof.
  apply (card_shown_has_reading my_key sample_str sample_format_0f
           [WeatherApp.thread_ends 0 network_up; WeatherApp.mainloop_after]).
  vm_compute. reflexivity.
Defined.

(** X21 at work: Paris is shown in Celsius and the unit button is
    pressed. *)
Lemma toggle_unit_shows_other_unit_witness :
  shows sample_str sample_format_0f
    (WeatherApp.step my_key sample_str sample_format_0f WeatherApp.click_unit_btn showing_paris)
    (Showing paris_reading false).
Proof.
  refine (proj1 (toggle_unit_shows_other_unit my_key sample_str sample_format_0f
                   showing_paris paris_reading true _ _)).
  - vm_compute. repeat match goal with |- _ /\ _ => split end; reflexivity.
  - vm_compute. repeat match goal with |- _ /\ _ => split end; eexists; reflexivity.
Defined.

(** X22 at work: a reading without a Fahrenheit temperature is shown in
    Celsius and the unit button is pressed. *)
Lemma toggle_unit_unformattable_leaves_old_unit_witness :
  let self' := WeatherApp.step my_key sample_str sample_format_0f WeatherApp.click_unit_btn
                 showing_without_fahrenheit in
  WeatherApp.use_celsius self' = false
  /\ WeatherCard.unit_label (WeatherApp.weather_card self') = "C".
Proof.
  cbn zeta.
  assert (Hshown : shows sample_str sample_format_0f showing_without_fahrenheit
                     (Showing paris_without_fahrenheit true)).
  { vm_compute. repeat match goal with |- _ /\ _ => split end; reflexivity. }
  destruct (toggle_unit_unformattable_leaves_old_unit my_key sample_str sample_format_0f
              showing_without_fahrenheit paris_without_fahrenheit true ValueError
              Hshown eq_refl) as (H1 & H2 & _).
  split; [exact H1 | exact H2].
Defined.

(** X23 at work: a reading without a Celsius temperature arrives while
    the spinner is shown. *)
Lemma handler_stores_before_it_raises_witness :
  let result := WeatherApp._handle_weather_result sample_str sample_format_0f
                  (Some paris_without_celsius) WeatherApp.__init__ in
  fst result = Raised ValueError
  /\ WeatherApp.current_weather (snd result) = Some paris_without_celsius
  /\ packed (snd result) = (true, false, false).
Proof.
  cbn zeta.
  destruct (handler_stores_before_it_raises sample_str sample_format_0f WeatherApp.__init__
              paris_without_celsius ValueError eq_refl) as (H1 & H2 & H3 & _).
  split; [exact H1|]. split; [exact H2 | exact H3].
Defined.

(** X24 at work: a failure and then a reading are queued. *)
Lemma last_queued_callback_decides_view_witness :
  shows sample_str sample_format_0f
    (WeatherApp.run my_key sample_str sample_format_0f
       [WeatherApp.mainloop_after; WeatherApp.mainloop_after] two_queued)
    (Showing paris_reading true).
Proof.
  refine (last_queued_callback_decides_view my_key sample_str sample_format_0f two_queued
            [(self_handle_weather_result, None)] (Some paris_reading) _ _).
  - vm_compute. reflexivity.
  - vm_compute. repeat match goal with |- _ /\ _ => split end; eexists; reflexivity.
Defined.

(** X25 at work: after a failed search the location button is pressed
    and the network answers. *)
Lemma location_fetch_completes_witness :
  shows sample_str sample_format_0f
    (WeatherApp.run my_key sample_str sample_format_0f
       [WeatherApp.click_location_btn; WeatherApp.thread_ends 0 network_up;
        WeatherApp.mainloop_after] after_failed_search)
    (Showing paris_reading true).
Proof.
  refine (proj1 (location_fetch_completes my_key sample_str sample_format_0f
                   after_failed_search network_up (Some paris_reading) _ _ _)).
  - vm_compute. reflexivity.
  - vm_compute. reflexivity.
  - vm_compute. repeat match goal with |- _ /\ _ => split end; eexists; reflexivity.
Defined.

(** X26 at work: after a failed search for Paris the search button is
    pressed again and the network answers. *)
Lemma search_fetch_completes_witness :
  shows sample_str sample_format_0f
    (WeatherApp.run my_key sample_str sample_format_0f
       [WeatherApp.click_search_btn; WeatherApp.thread_ends 0 network_up;
        WeatherApp.mainloop_after] after_failed_search)
    (Showing paris_reading true).
Proof.
  refine (proj1 (search_fetch_completes my_key sample_str sample_format_0f
                   after_failed_search network_up (Some paris_reading) _ _ _ _)).
  - vm_compute. reflexivity.
  - vm_compute. reflexivity.
  - vm_compute. reflexivity.
  - vm_compute. repeat match goal with |- _ /\ _ => split end; eexists; reflexivity.
Defined.

(** X27 at work: the location provider answers with a list, the task
    raises [AttributeError] and the spinner stays. *)
Lemma raising_fetch_strands_loading_witness :
  let final := WeatherApp.run my_key sample_str sample_format_0f
                 [WeatherApp.click_location_btn; WeatherApp.thread_ends 0 network_list_body]
                 after_failed_search in
  task_outcome my_key task_by_location network_list_body = Raised AttributeError
  /\ shows sample_str sample_format_0f final Loading
  /\ WeatherApp.step my_key sample_str sample_format_0f WeatherApp.mainloop_after final = final.
Proof.
  cbn zeta. split; [vm_compute; reflexivity|].
  assert (Hq : AsyncRunner.after_queue (WeatherApp.root after_failed_search) = [])
    by (vm_compute; reflexivity).
  assert (Hf : task_outcome my_key task_by_location network_list_body = Raised AttributeError)
    by (vm_compute; reflexivity).
  destruct (raising_fetch_strands_loading my_key sample_str sample_format_0f
              after_failed_search network_list_body AttributeError Hq Hf) as (H1 & _ & H3).
  split; [exact H1 | exact H3].
Defined.

(** X28 at work: with the placeholder key, the fetch of the start
    completes and the unit button is pressed. *)
Lemma always_in_a_view_state_witness :
  let self := WeatherApp.run YOUR_WEATHERAPI_KEY sample_str sample_format_0f
                [WeatherApp.thread_ends 0 network_up; WeatherApp.mainloop_after;
                 WeatherApp.click_unit_btn] WeatherApp.__init__ in
  shows sample_str sample_format_0f self Loading
  \/ shows sample_str sample_format_0f self (Failed fetch_failed_message)
  \/ exists reading,
       WeatherApp.current_weather self = Some reading
       /\ shows sample_str sample_format_0f self (Showing reading (WeatherApp.use_celsius self)).
Proof.
  apply (always_in_a_view_state YOUR_WEATHERAPI_KEY sample_str sample_format_0f
           [WeatherApp.thread_ends 0 network_up; WeatherApp.mainloop_after;
            WeatherApp.click_unit_btn]).
  constructor; [apply placeholder_readings_well_typed|].
  constructor; [exact I|]. constructor; [exact I|]. constructor.
Defined.

(* ====================================================================== *)
(** * Readings that cannot be formatted *)
(* ====================================================================== *)



(** The search asks for the text of the entry, stripped: a search for
    " Paris " with an ideographic space in front sends q="Paris". *)
Example search_sends_stripped_text :
  let self := WeatherApp.step my_key sample_str sample_format_0f WeatherApp.click_search_btn
                (WeatherApp.step my_key sample_str sample_format_0f
                   (WeatherApp.user_types
                      ([12288; 32]%N ++ ascii_text "Paris" ++ [32; 8195]%N)%list)
                   WeatherApp.__init__) in
  AsyncRunner.threads (WeatherApp.root self)
  = [(task_by_location, self_handle_weather_result);
     (task_search (ascii_text "Paris"), self_handle_weather_result)]
  /\ sent (snd (WeatherApp.call_task my_key (task_search (ascii_text "Paris"))
                  {| net := network_down; sent := [] |}))
     = [weather_request my_key (JStr "Paris")].
Proof. lazy zeta. split; vm_compute; reflexivity. Qed.

(** The ideographic space alone is a blank entry, and an accented letter
    at the end of a city is kept: "Perpignà" is stripped to itself and
    passed on as its UTF-8 bytes. *)
Example strip_on_code_points :
  all_whitespace [12288]%N = true
  /\ strip (ascii_text "Perpign" ++ [224]%N)%list = (ascii_text "Perpign" ++ [224]%N)%list
  /\ utf8 (ascii_text "Perpign" ++ [224]%N)%list = "Perpignà".
Proof. split; [|split]; vm_compute; reflexivity. Qed.
